(** * NSW Weather Accuracy Tracker: the accuracy engine, the observation
    fetchers, the summary builder and the two daily phases.

    The development embeds [scripts/config.py], [scripts/collect_forecast.py]
    and [scripts/collect_actual_and_compare.py].

    Numbers.  Python floats are modelled by exact rationals ([Q]).  The
    built-in [round(x, n)] is rounding to [n] decimals with ties going to the
    even neighbour, which is what CPython computes on the exact value of its
    argument; [round(math.sqrt(x), n)] is computed exactly on the real square
    root.  Binary64 representation error is outside the model: where the
    exact value is a decimal tie, the binary value that CPython rounds may lie
    on either side of it, so what is stated of a rounded mean ([rounded_to])
    leaves the direction of a tie open.

    Dictionaries.  A dictionary that is only read and updated by key
    ([actual_by_name], [diffs], the directories of the store) is a [gmap].
    A dictionary whose key order is observable in the JSON output
    ([region_comp["metrics"]], [summary]) is an insertion-ordered association
    list with Python's assignment semantics ([dict_set]).

    Effects.  An exception is the left side of [result]; the two [main]
    functions pass a [World] along, the store of JSON documents together with
    the trace of what the run requested and printed; the clock and the weather
    provider are read from an [Env]. *)

From Stdlib Require Import QArith Qround Qabs Qpower ZArith Lia Lqa.
From Stdlib Require Import Sorting.Sorted Sorting.Permutation.
From Stdlib Require OrderedTypeEx.
From stdpp Require Import gmap strings list sorting.

Local Open Scope string_scope.

(** ** Python numbers *)

Module Py.

(** [round(x)] to an integer, ties to even. *)
Definition round_half_even (q : Q) : Z :=
  let f := Qfloor q in
  match Qcompare (q - inject_Z f)%Q (1 # 2)%Q with
  | Lt => f
  | Gt => (f + 1)%Z
  | Eq => if Z.even f then f else (f + 1)%Z
  end.

Definition pow10 (nd : nat) : Z := (10 ^ Z.of_nat nd)%Z.

(** [round(x, nd)] *)
Definition round (q : Q) (nd : nat) : Q :=
  Qred (inject_Z (round_half_even (q * inject_Z (pow10 nd))) / inject_Z (pow10 nd)).

(** [round(math.sqrt(x), nd)], the nearest multiple of [10^-nd] to the real
    square root of [x], ties to even.  With [r = x * 10^(2 nd)] and
    [f = floor (sqrt r)], the root lies below, on or above [f + 1/2] as [r]
    compares with [(f + 1/2)^2]. *)
Definition round_sqrt_half_even (r : Q) : Z :=
  let f := Z.sqrt (Qfloor r) in
  let h := (inject_Z f + (1 # 2))%Q in
  match Qcompare r (h * h)%Q with
  | Lt => f
  | Gt => (f + 1)%Z
  | Eq => if Z.even f then f else (f + 1)%Z
  end.

Definition round_sqrt (q : Q) (nd : nat) : Q :=
  Qred (inject_Z (round_sqrt_half_even (q * inject_Z (pow10 nd) * inject_Z (pow10 nd)))
        / inject_Z (pow10 nd)).

(** [sum(xs)] over numbers *)
Definition sum (xs : list Q) : Q := fold_left Qplus xs 0%Q.

(** [len(xs)] as a number *)
Definition len {A} (xs : list A) : Q := inject_Z (Z.of_nat (length xs)).

(** [sum(1 for v in vals if p(v))] *)
Definition count (p : Q -> bool) (vals : list Q) : Q := len (List.filter p vals).

(** [x <= y] on numbers *)
Definition le (x y : Q) : bool := Qle_bool x y.

End Py.

(** ** Insertion-ordered dictionaries *)

Section Dict.
Context {V : Type}.

(** [d[k] = v]: replaces the value of an existing key in place, appends a
    new key at the end. *)
Fixpoint dict_set (k : string) (v : V) (d : list (string * V)) : list (string * V) :=
  match d with
  | [] => [(k, v)]
  | (k', v') :: d' =>
      if String.eqb k' k then (k, v) :: d' else (k', v') :: dict_set k v d'
  end.

(** [d.get(k)] *)
Fixpoint dict_get (k : string) (d : list (string * V)) : option V :=
  match d with
  | [] => None
  | (k', v') :: d' => if String.eqb k' k then Some v' else dict_get k d'
  end.

(** [d.values()] *)
Definition dict_values (d : list (string * V)) : list V := map snd d.
End Dict.

(** ** Configuration ([config.py]) *)

Record Region := { r_name : string; r_lat : Q; r_lon : Q }.

Definition NSW_REGIONS : list Region :=
  [ {| r_name := "Sydney";         r_lat := -(3387 # 100); r_lon := 15121 # 100 |};
    {| r_name := "Newcastle";      r_lat := -(3293 # 100); r_lon := 15178 # 100 |};
    {| r_name := "Wollongong";     r_lat := -(3442 # 100); r_lon := 15089 # 100 |};
    {| r_name := "Central Coast";  r_lat := -(3343 # 100); r_lon := 15134 # 100 |};
    {| r_name := "Blue Mountains"; r_lat := -(3372 # 100); r_lon := 15031 # 100 |};
    {| r_name := "Penrith";        r_lat := -(3375 # 100); r_lon := 15069 # 100 |};
    {| r_name := "Broken Hill";    r_lat := -(3195 # 100); r_lon := 14145 # 100 |};
    {| r_name := "Dubbo";          r_lat := -(3224 # 100); r_lon := 14860 # 100 |};
    {| r_name := "Tamworth";       r_lat := -(3109 # 100); r_lon := 15093 # 100 |};
    {| r_name := "Coffs Harbour";  r_lat := -(3030 # 100); r_lon := 15311 # 100 |};
    {| r_name := "Lismore";        r_lat := -(2881 # 100); r_lon := 15328 # 100 |};
    {| r_name := "Wagga Wagga";    r_lat := -(3512 # 100); r_lon := 14737 # 100 |};
    {| r_name := "Albury";         r_lat := -(3608 # 100); r_lon := 14692 # 100 |};
    {| r_name := "Orange";         r_lat := -(3328 # 100); r_lon := 14910 # 100 |};
    {| r_name := "Bathurst";       r_lat := -(3342 # 100); r_lon := 14958 # 100 |};
    {| r_name := "Griffith";       r_lat := -(3429 # 100); r_lon := 14604 # 100 |};
    {| r_name := "Armidale";       r_lat := -(3051 # 100); r_lon := 15167 # 100 |};
    {| r_name := "Port Macquarie"; r_lat := -(3143 # 100); r_lon := 15291 # 100 |};
    {| r_name := "Nowra";          r_lat := -(3488 # 100); r_lon := 15060 # 100 |};
    {| r_name := "Moree";          r_lat := -(2946 # 100); r_lon := 14985 # 100 |} ].

(** One entry of [THRESHOLDS]. *)
Record Thresholds := { exact : Q; near : Q; wide : Q; unit : string }.

Definition THRESHOLDS : list (string * Thresholds) :=
  [ ("high_temp",  {| exact := 0; near := 2; wide := 4;  unit := "°C" |});
    ("low_temp",   {| exact := 0; near := 2; wide := 4;  unit := "°C" |});
    ("wind_speed", {| exact := 0; near := 1; wide := 10; unit := "km/h" |});
    ("humidity",   {| exact := 0; near := 5; wide := 10; unit := "%" |});
    ("rain",       {| exact := 0; near := 1; wide := 5;  unit := "mm" |}) ].

(** ** Data model *)

Definition METRICS : list string :=
  ["high_temp"; "low_temp"; "wind_speed"; "humidity"; "rain"].

(** The record built by [fetch_forecast] and [fetch_actual]; [None] is JSON
    [null]. *)
Record ObservationRecord := {
  region : string;
  lat : Q;
  lon : Q;
  date : string;
  high_temp : option Q;
  low_temp : option Q;
  wind_speed : option Q;
  humidity : option Q;
  rain : option Q
}.

(** [rec.get(metric)] for a metric key: the field, [None] when it is null.
    Any other key is not a number of the record. *)
Definition get (rec : ObservationRecord) (metric : string) : option Q :=
  if String.eqb metric "high_temp" then high_temp rec
  else if String.eqb metric "low_temp" then low_temp rec
  else if String.eqb metric "wind_speed" then wind_speed rec
  else if String.eqb metric "humidity" then humidity rec
  else if String.eqb metric "rain" then rain rec
  else None.

Record MetricComparison := {
  mc_forecast : option Q;
  mc_actual : option Q;
  mc_diff : option Q
}.

Record RegionComparison := {
  rc_region : string;
  rc_metrics : list (string * MetricComparison)
}.

Record MetricSummary := {
  exact_pct : Q;
  near_pct : Q;
  near_threshold : Q;
  wide_pct : Q;
  wide_threshold : Q;
  mean_diff : Q;
  std_dev : Q;
  ms_unit : string;
  sample_size : nat
}.

Record AccuracyResult := {
  summary : list (string * option MetricSummary);
  overall_score : Q;
  avg_std_dev : Q;
  comparisons : list RegionComparison
}.

(** ** The accuracy engine ([compute_accuracy]) *)

(** [actual_by_name = {a["region"]: a for a in actual_regions}]: records are
    inserted from left to right, a later record replacing an earlier one of
    the same name. *)
Definition index_by_name (actual_regions : list ObservationRecord)
  : gmap string ObservationRecord :=
  foldl (fun d a => <[region a := a]> d) ∅ actual_regions.

(** [diffs = {m: [] for m in METRICS}] *)
Definition empty_diffs : gmap string (list Q) :=
  foldl (fun d m => <[m := []]> d) ∅ METRICS.

(** [diffs[metric]]; every metric key is present from [empty_diffs] on. *)
Definition diffs_at (diffs : gmap string (list Q)) (metric : string) : list Q :=
  default [] (diffs !! metric).

(** The body of [for metric in METRICS] inside the region loop: it assigns
    [region_comp["metrics"][metric]] and, when both values are present,
    appends the rounded absolute difference to [diffs[metric]]. *)
Definition compare_metric (fc act : ObservationRecord)
    (st : RegionComparison * gmap string (list Q)) (metric : string)
  : RegionComparison * gmap string (list Q) :=
  let '(region_comp, diffs) := st in
  let fc_val := get fc metric in
  let act_val := get act metric in
  match fc_val, act_val with
  | Some f, Some a =>
      let diff := Py.round (Qabs (f - a)) 2 in
      ({| rc_region := rc_region region_comp;
          rc_metrics :=
            dict_set metric
              {| mc_forecast := fc_val; mc_actual := act_val; mc_diff := Some diff |}
              (rc_metrics region_comp) |},
       alter (fun vals => (vals ++ [diff])%list) metric diffs)
  | _, _ =>
      ({| rc_region := rc_region region_comp;
          rc_metrics :=
            dict_set metric
              {| mc_forecast := fc_val; mc_actual := act_val; mc_diff := None |}
              (rc_metrics region_comp) |},
       diffs)
  end.

(** The body of [for fc in forecast_regions].  A record read from
    [actual_by_name] always holds its ["region"] key, so [not act] is true
    only when the lookup gave [None]. *)
Definition compare_region (actual_by_name : gmap string ObservationRecord)
    (st : list RegionComparison * gmap string (list Q)) (fc : ObservationRecord)
  : list RegionComparison * gmap string (list Q) :=
  let '(comparisons, diffs) := st in
  let name := region fc in
  match actual_by_name !! name with
  | None => st
  | Some act =>
      let '(region_comp, diffs') :=
        foldl (compare_metric fc act)
              ({| rc_region := name; rc_metrics := [] |}, diffs) METRICS in
      ((comparisons ++ [region_comp])%list, diffs')
  end.

(** The summary dictionary of one metric with a non-empty [vals]. *)
Definition metric_summary (thresholds : Thresholds) (vals : list Q) : MetricSummary :=
  let n := Py.len vals in
  let exact_count := Py.count (fun v => Py.le v (1 # 2)) vals in
  let near_count := Py.count (fun v => Py.le v (near thresholds)) vals in
  let wide_count := Py.count (fun v => Py.le v (wide thresholds)) vals in
  let mean_diff := (Py.sum vals / n)%Q in
  {| exact_pct := Py.round (exact_count / n * 100) 1;
     near_pct := Py.round (near_count / n * 100) 1;
     near_threshold := near thresholds;
     wide_pct := Py.round (wide_count / n * 100) 1;
     wide_threshold := wide thresholds;
     mean_diff := Py.round mean_diff 2;
     std_dev :=
       if (1 <? length vals)%nat
       then Py.round_sqrt (Py.sum (map (fun v => (v - mean_diff) ^ 2)%Q vals) / n) 2
       else Py.round 0 2;
     ms_unit := unit thresholds;
     sample_size := length vals |}.

(** [THRESHOLDS[metric]] in a table [T]; the keys of [METRICS] are all in
    [THRESHOLDS] (lemma [THRESHOLDS_total]), so the default is never read
    there. *)
Definition thresholds_of (T : list (string * Thresholds)) (metric : string) : Thresholds :=
  default {| exact := 0; near := 0; wide := 0; unit := "" |} (dict_get metric T).

(** The body of [for metric in METRICS] of the summary statistics. *)
Definition summarise_metric (T : list (string * Thresholds)) (diffs : gmap string (list Q))
    (summary : list (string * option MetricSummary)) (metric : string)
  : list (string * option MetricSummary) :=
  let vals := diffs_at diffs metric in
  match vals with
  | [] => dict_set metric None summary
  | _ :: _ => dict_set metric (Some (metric_summary (thresholds_of T metric) vals)) summary
  end.

(** The region loop: [comparisons] and [diffs] after
    [for fc in forecast_regions]. *)
Definition compare_regions (actual_by_name : gmap string ObservationRecord)
    (forecast_regions : list ObservationRecord)
  : list RegionComparison * gmap string (list Q) :=
  foldl (compare_region actual_by_name) ([], empty_diffs) forecast_regions.

(** [compute_accuracy] over a thresholds table [T]. *)
Definition compute_accuracy_with (T : list (string * Thresholds))
    (forecast_regions actual_regions : list ObservationRecord) : AccuracyResult :=
  let actual_by_name := index_by_name actual_regions in
  let '(comparisons, diffs) := compare_regions actual_by_name forecast_regions in
  let summary := foldl (summarise_metric T diffs) [] METRICS in
  let valid_summaries := omap id (dict_values summary) in
  let overall_score :=
    match valid_summaries with
    | [] => 0%Q
    | _ :: _ => Py.round (Py.sum (map wide_pct valid_summaries) / Py.len valid_summaries) 1
    end in
  let avg_std :=
    match valid_summaries with
    | [] => 0%Q
    | _ :: _ => (Py.sum (map std_dev valid_summaries) / Py.len valid_summaries)%Q
    end in
  {| summary := summary;
     overall_score := overall_score;
     avg_std_dev := Py.round avg_std 2;
     comparisons := comparisons |}.

Definition compute_accuracy
  : list ObservationRecord -> list ObservationRecord -> AccuracyResult :=
  compute_accuracy_with THRESHOLDS.

(** ** Exceptions *)

Inductive PyError :=
| TypeError      (* an operand of the wrong type: [None] in [sum], or a
                    subscript on a value that is not an object *)
| IndexError     (* list index out of range *)
| ValueError     (* raised by [fetch_actual]: target date not in the response *)
| KeyError       (* a missing key of a loaded document *)
| JSONDecodeError    (* [json.load] of text that is not JSON *)
| FileNotFoundError  (* [open] of a name that is not in the directory *)
| RequestError.  (* [requests.get], [raise_for_status] or [resp.json] failed *)

Definition result (A : Type) : Type := PyError + A.

Definition raise {A} (e : PyError) : result A := inl e.
Definition ret {A} (a : A) : result A := inr a.
Definition bind {A B} (m : result A) (k : A -> result B) : result B :=
  match m with
  | inl e => inl e
  | inr a => k a
  end.

Notation "'do' x <- m ; k" := (bind m (fun x => k))
  (at level 10, x name, m at level 100, k at level 200).

(** [l[i]] for a non-negative index *)
Definition py_index {A} (l : list A) (i : nat) : result A :=
  match l !! i with
  | Some x => ret x
  | None => raise IndexError
  end.

(** [sum(values)] over a list that may hold [None]: the running total starts
    at 0 and adding [None] to a number is a [TypeError]. *)
Definition py_sum (values : list (option Q)) : result Q :=
  foldl (fun acc v =>
           do total <- acc;
           match v with
           | Some x => ret (total + x)%Q
           | None => raise TypeError
           end)
        (ret 0%Q) values.

(** ** The provider response *)

(** The ["daily"] object; an absent key is [None], a present array holds
    numbers and nulls. *)
Record Daily := {
  d_time : option (list string);
  temperature_2m_max : option (list (option Q));
  temperature_2m_min : option (list (option Q));
  precipitation_sum : option (list (option Q));
  wind_speed_10m_max : option (list (option Q))
}.

(** The ["hourly"] object. *)
Record Hourly := {
  h_time : option (list string);
  relative_humidity_2m : option (list (option Q))
}.

(** The decoded body [resp.json()]. *)
Record Response := {
  daily : option Daily;
  hourly : option Hourly
}.

(** [{}] for [data.get("daily", {})] and [data.get("hourly", {})] *)
Definition no_daily : Daily :=
  {| d_time := None; temperature_2m_max := None; temperature_2m_min := None;
     precipitation_sum := None; wind_speed_10m_max := None |}.
Definition no_hourly : Hourly := {| h_time := None; relative_humidity_2m := None |}.

(** [daily.get(key, [None])[idx]] *)
Definition daily_value (arr : option (list (option Q))) (idx : nat) : result (option Q) :=
  py_index (default [None] arr) idx.


(** The provider: the outcome of [requests.get], [raise_for_status] and
    [resp.json()] for a region and a target date. *)
Definition Provider : Type := Region -> string -> result Response.

(** ** [fetch_forecast] ([collect_forecast.py]) *)

Definition fetch_forecast (http : Provider) (reg : Region) (target_date : string)
  : result ObservationRecord :=
  do data <- http reg target_date;
  let daily := default no_daily (daily data) in
  let hourly := default no_hourly (hourly data) in
  let humidity_values := default [] (relative_humidity_2m hourly) in
  do avg_humidity <-
    match humidity_values with
    | [] => ret None
    | _ :: _ =>
        do total <- py_sum humidity_values;
        ret (Some (Py.round (total / Py.len humidity_values) 1))
    end;
  do ht <- daily_value (temperature_2m_max daily) 0;
  do lt <- daily_value (temperature_2m_min daily) 0;
  do ws <- daily_value (wind_speed_10m_max daily) 0;
  do ra <- daily_value (precipitation_sum daily) 0;
  ret {| region := r_name reg; lat := r_lat reg; lon := r_lon reg; date := target_date;
         high_temp := ht; low_temp := lt; wind_speed := ws;
         humidity := avg_humidity; rain := ra |}.

(** ** [fetch_actual] ([collect_actual_and_compare.py]) *)

(** [daily_dates.index(target_date)] *)
Definition index_of (target_date : string) (daily_dates : list string) : result nat :=
  match list_find (fun d => d = target_date) daily_dates with
  | Some (i, _) => ret i
  | None => raise ValueError
  end.

(** The loop [for i, t in enumerate(hourly_times)], from index [i] on. *)
Fixpoint day_humidity_from (target_date : string) (humidity_values : list (option Q))
    (i : nat) (hourly_times : list string) : list Q :=
  match hourly_times with
  | [] => []
  | t :: ts =>
      let here :=
        if String.prefix target_date t then
          match humidity_values !! i with
          | Some (Some v) => [v]
          | _ => []
          end
        else [] in
      (here ++ day_humidity_from target_date humidity_values (S i) ts)%list
  end.

Definition fetch_actual (http : Provider) (reg : Region) (target_date : string)
  : result ObservationRecord :=
  do data <- http reg target_date;
  let daily := default no_daily (daily data) in
  let hourly := default no_hourly (hourly data) in
  let daily_dates := default [] (d_time daily) in
  do idx <- index_of target_date daily_dates;
  let hourly_times := default [] (h_time hourly) in
  let humidity_values := default [] (relative_humidity_2m hourly) in
  let day_humidity := day_humidity_from target_date humidity_values 0 hourly_times in
  let avg_humidity :=
    match day_humidity with
    | [] => None
    | _ :: _ => Some (Py.round (Py.sum day_humidity / Py.len day_humidity) 1)
    end in
  do ht <- daily_value (temperature_2m_max daily) idx;
  do lt <- daily_value (temperature_2m_min daily) idx;
  do ws <- daily_value (wind_speed_10m_max daily) idx;
  do ra <- daily_value (precipitation_sum daily) idx;
  ret {| region := r_name reg; lat := r_lat reg; lon := r_lon reg; date := target_date;
         high_temp := ht; low_temp := lt; wind_speed := ws;
         humidity := avg_humidity; rain := ra |}.

(** ** Sorting *)

Section Sort.
Context {A : Type} (before : A -> A -> bool).

Fixpoint insert_sorted (x : A) (l : list A) : list A :=
  match l with
  | [] => [x]
  | y :: l' => if before x y then x :: y :: l' else y :: insert_sorted x l'
  end.

(** A stable sort, as Python's: among elements that compare equal the
    original order is kept.  [before x y] tells that [x] may stand before
    [y]. *)
Definition py_sort (l : list A) : list A := foldr insert_sorted [] l.
End Sort.

(** [sorted(names)] on strings *)
Definition sorted_names : list string -> list string := py_sort String.leb.

(** [s.endswith(suffix)] *)
Definition endswith (s suffix : string) : bool :=
  let n := String.length s in
  let k := String.length suffix in
  (k <=? n)%nat && String.eqb (String.substring (n - k) k s) suffix.

(** ** Persisted documents and the store *)

(** [data/forecasts/<date>.json] and [data/actuals/<date>.json] *)
Record Collection := {
  c_date : string;
  collected_at : string;
  c_type : string;
  region_count : nat;
  regions : list ObservationRecord
}.

(** [data/results/<date>.json] *)
Record DayResult := {
  dr_date : string;
  processed_at : string;
  forecast_collected_at : option string;
  accuracy : AccuracyResult
}.

(** One element of the feed's [results]. *)
Record SummaryEntry := {
  se_date : string;
  se_overall_score : Q;
  se_avg_std_dev : Q;
  se_summary : list (string * option MetricSummary)
}.

(** [data/results/summary.json] *)
Record SummaryFeed := {
  last_updated : string;
  total_days : nat;
  results : list SummaryEntry
}.

(** Why [rebuild_summary] cannot read a file that is neither of the two
    documents of the directory. *)
Inductive LoadFailure :=
| NotJson        (* the text is not JSON: [json.load] fails *)
| NotSubscriptable
                 (* JSON, but a list, a string, a number or [null] where an
                    object is read: [result["date"]] or
                    [result["accuracy"]["overall_score"]] fails on the type *)
| MissingKey.    (* an object without one of the keys read *)

(** What a file of the results directory holds. *)
Inductive ResultsFile :=
| DayResultFile (d : DayResult)
| SummaryFile (s : SummaryFeed)
| ForeignFile (why : LoadFailure).
                 (* anything that is not one of the two documents *)

(** The three directories under [data/], each a map from file name to
    content. *)
Record Store := {
  forecasts_dir : gmap string Collection;
  actuals_dir : gmap string Collection;
  results_dir : gmap string ResultsFile
}.

(** What a run does that is visible from outside, in order. *)
Inductive Event :=
| Request (reg : Region)                         (* [requests.get] for a region *)
| Print (line : string)                          (* a fixed line on stdout *)
| PrintOK (rec : ObservationRecord)              (* the "  OK: ..." line *)
| PrintFail (name : string) (e : PyError)        (* the "  FAIL: ..." line on stderr *)
| PrintMetric (metric : string) (s : option MetricSummary)
| PrintScores (overall avg : Q)
| PrintSaved (count : nat) (path : string)       (* "Saved <count> ... to <path>" *)
| PrintRebuilt (days : nat)                      (* "Rebuilt summary.json with <days> days of data" *)
| Sleep                                          (* [time.sleep(0.5)] *)
| Traceback (e : PyError).                       (* an exception nobody caught *)

Record World := {
  store : Store;
  trace : list Event
}.

(** What a run reads from its environment. *)
Record Env := {
  http : Provider;
  repo_root : string;
  today : string;              (* [now_aest.strftime("%Y-%m-%d")] *)
  yesterday : string;          (* the same of [now_aest - timedelta(days=1)] *)
  now_aest : string;           (* [now_aest.isoformat()] *)
  utc_now : nat -> string      (* the n-th [datetime.now(timezone.utc).isoformat()] of the run *)
}.

Definition emit (e : Event) (w : World) : World :=
  {| store := store w; trace := (trace w ++ [e])%list |}.

Definition write_forecast (name : string) (doc : Collection) (w : World) : World :=
  {| store := {| forecasts_dir := <[name := doc]> (forecasts_dir (store w));
                 actuals_dir := actuals_dir (store w);
                 results_dir := results_dir (store w) |};
     trace := trace w |}.

Definition write_actuals (name : string) (doc : Collection) (w : World) : World :=
  {| store := {| forecasts_dir := forecasts_dir (store w);
                 actuals_dir := <[name := doc]> (actuals_dir (store w));
                 results_dir := results_dir (store w) |};
     trace := trace w |}.

Definition write_result (name : string) (doc : ResultsFile) (w : World) : World :=
  {| store := {| forecasts_dir := forecasts_dir (store w);
                 actuals_dir := actuals_dir (store w);
                 results_dir := <[name := doc]> (results_dir (store w)) |};
     trace := trace w |}.

(** ** [collect_forecast.main] *)

(** The body of [for region in NSW_REGIONS] of either phase: one fetch (and
    its request) inside [try], the record appended on success, the failure
    printed on stderr, then the pause. *)
Definition collect_region (fetch : Region -> result ObservationRecord)
    (st : list ObservationRecord * World) (reg : Region)
  : list ObservationRecord * World :=
  let '(records, w) := st in
  let w := emit (Request reg) w in
  let st' :=
    match fetch reg with
    | inr rec => ((records ++ [rec])%list, emit (PrintOK rec) w)
    | inl e => (records, emit (PrintFail (r_name reg) e) w)
    end in
  (st'.1, emit Sleep st'.2).

Module collect_forecast.

Definition main (env : Env) (w : World) : nat * World :=
  let target_date := today env in
  let w := emit (Print ("Collecting forecasts for " ++ target_date ++ " (AEST)")) w in
  let w := emit (Print ("Current time: " ++ now_aest env)) w in
  let '(forecasts, w) :=
    foldl (collect_region (fun reg => fetch_forecast (http env) reg target_date))
          ([], w) NSW_REGIONS in
  let output :=
    {| c_date := target_date;
       collected_at := utc_now env 0;
       c_type := "forecast";
       region_count := length forecasts;
       regions := forecasts |} in
  let output_name := target_date ++ ".json" in
  let output_path := repo_root env ++ "/data/forecasts/" ++ output_name in
  let w := write_forecast output_name output w in
  let w := emit (PrintSaved (length forecasts) output_path) w in
  (if (length forecasts =? length NSW_REGIONS)%nat then 0%nat else 1%nat, w).

End collect_forecast.

(** ** [rebuild_summary] *)

(** [{"date": result["date"], "overall_score": ..., ...}] *)
Definition project (d : DayResult) : SummaryEntry :=
  {| se_date := dr_date d;
     se_overall_score := overall_score (accuracy d);
     se_avg_std_dev := avg_std_dev (accuracy d);
     se_summary := summary (accuracy d) |}.

(** The exception each kind of unreadable file raises. *)
Definition load_error (why : LoadFailure) : PyError :=
  match why with
  | NotJson => JSONDecodeError
  | NotSubscriptable => TypeError
  | MissingKey => KeyError
  end.

(** [json.load] of a results file followed by the reads of its keys.  A
    summary feed parses, and is an object without the key ["date"]. *)
Definition load_result (f : ResultsFile) : result SummaryEntry :=
  match f with
  | DayResultFile d => ret (project d)
  | SummaryFile _ => raise KeyError
  | ForeignFile why => raise (load_error why)
  end.

(** The body of [for filename in sorted(os.listdir(results_dir))]. *)
Definition load_file (dir : gmap string ResultsFile)
    (acc : result (list SummaryEntry)) (filename : string)
  : result (list SummaryEntry) :=
  do all_results <- acc;
  if negb (endswith filename ".json") || String.eqb filename "summary.json"
  then ret all_results
  else
    match dir !! filename with
    | Some f => do entry <- load_result f; ret (all_results ++ [entry])%list
    | None => raise FileNotFoundError
    end.

(** [os.listdir(results_dir)]: the names of the directory, in no promised
    order. *)
Definition listdir (dir : gmap string ResultsFile) : list string :=
  (map_to_list dir).*1.

(** [all_results.sort(key=lambda x: x["date"], reverse=True)] *)
Definition sort_by_date_desc : list SummaryEntry -> list SummaryEntry :=
  py_sort (fun x y => String.leb (se_date y) (se_date x)).

(** [rebuild_summary(results_dir)]; [stamp] is the time read for
    [last_updated]. *)
Definition rebuild_summary (stamp : string) (w : World) : result World :=
  let dir := results_dir (store w) in
  do all_results <- foldl (load_file dir) (ret []) (sorted_names (listdir dir));
  let all_results := sort_by_date_desc all_results in
  let feed :=
    {| last_updated := stamp;
       total_days := length all_results;
       results := all_results |} in
  let w := write_result "summary.json" (SummaryFile feed) w in
  ret (emit (PrintRebuilt (length all_results)) w).

(** ** [collect_actual_and_compare.main] *)

Module collect_actual_and_compare.

Definition main (env : Env) (w : World) : nat * World :=
  let yesterday := yesterday env in
  let w := emit (Print ("Processing results for " ++ yesterday)) w in
  let w := emit (Print ("Current time: " ++ now_aest env)) w in
  let forecast_name := yesterday ++ ".json" in
  let forecast_path := repo_root env ++ "/data/forecasts/" ++ forecast_name in
  match forecasts_dir (store w) !! forecast_name with
  | None =>
      let w := emit (Print ("ERROR: No forecast file found for " ++ yesterday
                            ++ " at " ++ forecast_path)) w in
      let w := emit (Print "Cannot compare without a forecast. Exiting.") w in
      (1%nat, w)
  | Some forecast_data =>
      let w := emit (Print ("Collecting actual weather for " ++ yesterday ++ "...")) w in
      let '(actuals, w) :=
        foldl (collect_region (fun reg => fetch_actual (http env) reg yesterday))
              ([], w) NSW_REGIONS in
      let actuals_output :=
        {| c_date := yesterday;
           collected_at := utc_now env 0;
           c_type := "actual";
           region_count := length actuals;
           regions := actuals |} in
      let actuals_name := yesterday ++ ".json" in
      let actuals_path := repo_root env ++ "/data/actuals/" ++ actuals_name in
      let w := write_actuals actuals_name actuals_output w in
      let w := emit (PrintSaved (length actuals) actuals_path) w in
      let w := emit (Print "Computing accuracy...") w in
      let accuracy := compute_accuracy (regions forecast_data) actuals in
      let w := emit (Print "=== ACCURACY SUMMARY ===") w in
      let w :=
        foldl (fun w metric =>
                 emit (PrintMetric metric (dict_get metric (summary accuracy) ≫= id)) w)
              w METRICS in
      let w := emit (PrintScores (overall_score accuracy) (avg_std_dev accuracy)) w in
      let result :=
        {| dr_date := yesterday;
           processed_at := utc_now env 1;
           forecast_collected_at := Some (collected_at forecast_data);
           accuracy := accuracy |} in
      let result_file := yesterday ++ ".json" in
      let result_path := repo_root env ++ "/data/results/" ++ result_file in
      let w := write_result result_file (DayResultFile result) w in
      let w := emit (Print ("Saved results to " ++ result_path)) w in
      match rebuild_summary (utc_now env 2) w with
      | inr w => (0%nat, w)
      | inl e => (1%nat, emit (Traceback e) w)
      end
  end.

End collect_actual_and_compare.

(** ** Specification-side definitions *)

(** The MetricComparison of the data model: both values kept, [diff] the
    absolute difference rounded to 2 decimals, or null when a side is null. *)
Definition metric_comparison (fc act : ObservationRecord) (metric : string)
  : MetricComparison :=
  {| mc_forecast := get fc metric;
     mc_actual := get act metric;
     mc_diff :=
       match get fc metric, get act metric with
       | Some f, Some a => Some (Py.round (Qabs (f - a)) 2)
       | _, _ => None
       end |}.

(** The RegionComparison of a forecast record and its actual record: the five
    metric keys in their fixed order. *)
Definition region_comparison (fc act : ObservationRecord) : RegionComparison :=
  {| rc_region := region fc;
     rc_metrics := map (fun metric => (metric, metric_comparison fc act metric)) METRICS |}.

(** The actual record a region name is matched with: the last record of
    that name. *)
Definition matching_actual (actual_regions : list ObservationRecord) (name : string)
  : option ObservationRecord :=
  last (filter (fun a => region a = name) actual_regions).

(** What one forecast record adds to the diff list of a metric: its diff when
    the region is matched and both sides are present, nothing otherwise. *)
Definition sample (actual_regions : list ObservationRecord) (metric : string)
    (fc : ObservationRecord) : list Q :=
  match matching_actual actual_regions (region fc) with
  | Some act =>
      match mc_diff (metric_comparison fc act metric) with
      | Some d => [d]
      | None => []
      end
  | None => []
  end.

(** What one forecast record paired with its actual adds to a diff list. *)
Definition pair_sample (fc act : ObservationRecord) (metric : string) : list Q :=
  match mc_diff (metric_comparison fc act metric) with
  | Some d => [d]
  | None => []
  end.

(** What a forecast record adds to a diff list, read off the name lookup. *)
Definition sample_in (abn : gmap string ObservationRecord) (metric : string)
    (fc : ObservationRecord) : list Q :=
  match abn !! region fc with
  | Some act => pair_sample fc act metric
  | None => []
  end.

(** The summary entry of a metric with diff list [vals]: null for an empty
    list. *)
Definition summary_entry (T : list (string * Thresholds)) (metric : string)
    (vals : list Q) : option MetricSummary :=
  match vals with
  | [] => None
  | _ :: _ => Some (metric_summary (thresholds_of T metric) vals)
  end.

(** Whether a forecast record yields a sample of a metric: its region is
    matched and both values are present. *)
Definition yields_sample (actual_regions : list ObservationRecord) (metric : string)
    (fc : ObservationRecord) : bool :=
  match matching_actual actual_regions (region fc) with
  | Some act =>
      match get fc metric, get act metric with
      | Some _, Some _ => true
      | _, _ => false
      end
  | None => false
  end.

(** The diff list of a metric. *)
Definition metric_diffs (actual_regions : list ObservationRecord) (metric : string)
    (forecast_regions : list ObservationRecord) : list Q :=
  flat_map (sample actual_regions metric) forecast_regions.

(** The percentage of [vals] that are at most [bound], to 1 decimal. *)
Definition pct_within (bound : Q) (vals : list Q) : Q :=
  Py.round (100 * Py.len (List.filter (fun v => Qle_bool v bound) vals) / Py.len vals) 1.

(** The arithmetic mean. *)
Definition mean (xs : list Q) : Q := (Py.sum xs / Py.len xs)%Q.

(** [r] is [x] rounded to [nd] decimals: a multiple of [10^-nd] at most half
    a unit of the last place from [x].  Which of the two neighbours a tie goes
    to is left open: there the binary value of [x] decides. *)
Definition rounded_to (nd : nat) (x r : Q) : Prop :=
  (exists k : Z, r == inject_Z k / inject_Z (Py.pow10 nd))%Q /\
  (Qabs (r - x) <= (1 # 2) / inject_Z (Py.pow10 nd))%Q.

(** The non-null summaries of a result, in metric order. *)
Definition valid_summaries (r : AccuracyResult) : list MetricSummary :=
  omap snd (summary r).

(** A thresholds table with every [exact] field replaced by [e]. *)
Definition set_exact (e : Q) (T : list (string * Thresholds)) : list (string * Thresholds) :=
  map (fun kt => (kt.1, {| exact := e; near := near kt.2; wide := wide kt.2;
                           unit := unit kt.2 |})) T.

(** The names under which the results directory holds day results: JSON
    files other than the feed's own. *)
Definition result_name (filename : string) : bool :=
  endswith filename ".json" && negb (String.eqb filename "summary.json").

(** The day-result documents of a results directory. *)
Definition result_documents (dir : gmap string ResultsFile) : list DayResult :=
  omap (fun nf : string * ResultsFile =>
          match nf.2 with
          | DayResultFile d => if result_name nf.1 then Some d else None
          | _ => None
          end)
       (map_to_list dir).

(** The feed entry [rebuild_summary] takes from a file name, if any. *)
Definition entry_of (dir : gmap string ResultsFile) (filename : string)
  : option SummaryEntry :=
  if result_name filename then
    match dir !! filename with
    | Some (DayResultFile d) => Some (project d)
    | _ => None
    end
  else None.

Definition is_day_result (f : ResultsFile) : bool :=
  match f with
  | DayResultFile _ => true
  | _ => false
  end.

(** Whether [rebuild_summary] loads the file of a name and cannot read
    it. *)
Definition unreadable (dir : gmap string ResultsFile) (name : string) : bool :=
  result_name name &&
  match dir !! name with
  | Some f => negb (is_day_result f)
  | None => false
  end.

(** Every file that [rebuild_summary] loads is a day result. *)
Definition loadable (dir : gmap string ResultsFile) : Prop :=
  map_Forall (fun name f => result_name name = true -> is_day_result f = true) dir.

(** [name] holds [f], the first file in name order that [rebuild_summary]
    loads and cannot read. *)
Definition first_unreadable (dir : gmap string ResultsFile) (name : string)
    (f : ResultsFile) : Prop :=
  dir !! name = Some f /\ result_name name = true /\ is_day_result f = false /\
  forall name' f', dir !! name' = Some f' -> result_name name' = true ->
    is_day_result f' = false -> String.leb name name' = true.

(** The feed a run of [rebuild_summary] left in the store. *)
Definition feed_of (r : result World) : option SummaryFeed :=
  match r with
  | inr w =>
      match results_dir (store w) !! "summary.json" with
      | Some (SummaryFile feed) => Some feed
      | _ => None
      end
  | inl _ => None
  end.

(** Descending by date: [x] may stand before [y]. *)
Definition date_desc (x y : SummaryEntry) : Prop := String.leb (se_date y) (se_date x) = true.

(** The record of a region whose fetch succeeded. *)
Definition collected (fetch : Region -> result ObservationRecord) (reg : Region)
  : option ObservationRecord :=
  match fetch reg with
  | inr rec => Some rec
  | inl _ => None
  end.

(** The events of one turn of the region loop. *)
Definition region_events (fetch : Region -> result ObservationRecord) (reg : Region)
  : list Event :=
  [ Request reg;
    match fetch reg with
    | inr rec => PrintOK rec
    | inl e => PrintFail (r_name reg) e
    end;
    Sleep ].

(** ** Sample data *)

Definition mkrec (name : string) (ht lt ws hu ra : option Q) : ObservationRecord :=
  {| region := name; lat := 0; lon := 0; date := "2024-01-01";
     high_temp := ht; low_temp := lt; wind_speed := ws; humidity := hu; rain := ra |}.

Definition only_high_temp (name : string) (ht : Q) : ObservationRecord :=
  mkrec name (Some ht) None None None None.

(** Two regions, each with both temperatures on both sides: the high
    temperatures differ by 1 and 2, the low temperatures by 0 and 6. *)
Definition two_region_forecast : list ObservationRecord :=
  [ mkrec "A" (Some 20%Q) (Some 10%Q) None None None;
    mkrec "B" (Some 22%Q) (Some 12%Q) None None None ].

Definition two_region_actual : list ObservationRecord :=
  [ mkrec "A" (Some 21%Q) (Some 10%Q) None None None;
    mkrec "B" (Some 24%Q) (Some 18%Q) None None None ].

(** A complete one-day response. *)
Definition good_response (day : string) : Response :=
  {| daily := Some {| d_time := Some [day];
                      temperature_2m_max := Some [Some 25%Q];
                      temperature_2m_min := Some [Some 15%Q];
                      precipitation_sum := Some [Some 0%Q];
                      wind_speed_10m_max := Some [Some 12%Q] |};
     hourly := Some {| h_time := Some [day ++ "T00:00"; day ++ "T01:00"];
                       relative_humidity_2m := Some [Some 50%Q; Some 60%Q] |} |}.

(** The same response with a null among the hourly humidity values. *)
Definition null_humidity_response (day : string) : Response :=
  {| daily := daily (good_response day);
     hourly := Some {| h_time := Some [day ++ "T00:00"; day ++ "T01:00"];
                       relative_humidity_2m := Some [Some 50%Q; None] |} |}.

(** A response whose daily temperature array is present and empty. *)
Definition short_daily_response (day : string) : Response :=
  {| daily := Some {| d_time := Some [day];
                      temperature_2m_max := Some [];
                      temperature_2m_min := Some [Some 15%Q];
                      precipitation_sum := Some [Some 0%Q];
                      wind_speed_10m_max := Some [Some 12%Q] |};
     hourly := hourly (good_response day) |}.

(** A three-day response (two trailing days, then the target day) without
    the maximum-temperature key. *)
Definition missing_key_response (d1 d2 day : string) : Response :=
  {| daily := Some {| d_time := Some [d1; d2; day];
                      temperature_2m_max := None;
                      temperature_2m_min := Some [Some 13%Q; Some 14%Q; Some 15%Q];
                      precipitation_sum := Some [Some 0%Q; Some 0%Q; Some 0%Q];
                      wind_speed_10m_max := Some [Some 10%Q; Some 11%Q; Some 12%Q] |};
     hourly := hourly (good_response day) |}.

Definition sydney : Region := {| r_name := "Sydney"; r_lat := -(3387 # 100); r_lon := 15121 # 100 |}.

(** A provider that fails for three regions of the catalog and answers the
    others. *)
Definition flaky_http : Provider :=
  fun reg day =>
    if bool_decide (r_name reg ∈ ["Sydney"; "Dubbo"; "Moree"])
    then raise RequestError
    else ret (good_response day).

Definition sample_env (p : Provider) : Env :=
  {| http := p; repo_root := "/repo"; today := "2024-01-02"; yesterday := "2024-01-01";
     now_aest := "2024-01-02T06:00:00+10:00";
     utc_now := fun _ => "2024-01-01T20:00:00+00:00" |}.

(** A provider that answers every region. *)
Definition good_http : Provider := fun _ day => ret (good_response day).

(** The environment of the forecast run of 2024-01-01, one day before
    [sample_env]. *)
Definition day_before_env (p : Provider) : Env :=
  {| http := p; repo_root := "/repo"; today := "2024-01-01"; yesterday := "2023-12-31";
     now_aest := "2024-01-01T06:00:00+10:00";
     utc_now := fun _ => "2023-12-31T20:00:00+00:00" |}.

Definition empty_world : World :=
  {| store := {| forecasts_dir := ∅; actuals_dir := ∅; results_dir := ∅ |}; trace := [] |}.

Definition no_data : AccuracyResult :=
  {| summary := map (fun m => (m, None)) METRICS; overall_score := 0; avg_std_dev := 0;
     comparisons := [] |}.

Definition day_result (day : string) : DayResult :=
  {| dr_date := day; processed_at := "t"; forecast_collected_at := None;
     accuracy := no_data |}.

(** Three day results written out of date order, next to an earlier feed and
    a file that is not JSON. *)
Definition sample_results : gmap string ResultsFile :=
  <["2024-01-01.json" := DayResultFile (day_result "2024-01-01")]>
  (<["2024-01-03.json" := DayResultFile (day_result "2024-01-03")]>
  (<["2024-01-02.json" := DayResultFile (day_result "2024-01-02")]>
  (<["summary.json" := SummaryFile {| last_updated := "old"; total_days := 0; results := [] |}]>
  (<["README.md" := ForeignFile NotJson]> ∅)))).

Definition sample_results_world : World :=
  {| store := {| forecasts_dir := ∅; actuals_dir := ∅; results_dir := sample_results |};
     trace := [] |}.


(** The regions a stretch of trace made requests for, in order. *)
Definition requested (events : list Event) : list Region :=
  omap (fun ev => match ev with Request reg => Some reg | _ => None end) events.

(** The hourly humidity value a time stamp contributes for a target date. *)
Definition hour_value (target_date : string) (tv : string * option Q) : option Q :=
  if String.prefix target_date tv.1 then tv.2 else None.

(** The three day results of [sample_results] alone. *)
Definition sample_results_only : gmap string ResultsFile :=
  <["2024-01-01.json" := DayResultFile (day_result "2024-01-01")]>
  (<["2024-01-03.json" := DayResultFile (day_result "2024-01-03")]>
  (<["2024-01-02.json" := DayResultFile (day_result "2024-01-02")]> ∅)).

Definition sample_results_only_world : World :=
  {| store := {| forecasts_dir := ∅; actuals_dir := ∅; results_dir := sample_results_only |};
     trace := [] |}.

(** The world the forecast run of 2024-01-01 leaves behind. *)
Definition world_after_forecast : World :=
  (collect_forecast.main (day_before_env good_http) empty_world).2.

(** The same world with a JSON file in the results directory that is not a
    day result. *)
Definition world_with_foreign_json : World :=
  write_result "notes.json" (ForeignFile NotSubscriptable) world_after_forecast.

(** The day result the comparison run of an environment writes for a
    forecast document. *)
Definition day_result_of (env : Env) (forecast_data : Collection) : DayResult :=
  {| dr_date := yesterday env;
     processed_at := utc_now env 1;
     forecast_collected_at := Some (collected_at forecast_data);
     accuracy :=
       compute_accuracy (regions forecast_data)
         (omap (collected (fun reg => fetch_actual (http env) reg (yesterday env)))
               NSW_REGIONS) |}.

(** The actuals document the comparison run of an environment writes. *)
Definition actuals_of (env : Env) : Collection :=
  let actuals :=
    omap (collected (fun reg => fetch_actual (http env) reg (yesterday env))) NSW_REGIONS in
  {| c_date := yesterday env; collected_at := utc_now env 0; c_type := "actual";
     region_count := length actuals; regions := actuals |}.

(** * Properties *)

(** ** Rounding and counting *)

Section Numbers.
Local Open Scope Q_scope.

Lemma round_half_even_mono (q1 q2 : Q) :
  q1 <= q2 -> (Py.round_half_even q1 <= Py.round_half_even q2)%Z.
Proof.
  intros Hle. unfold Py.round_half_even.
  pose proof (Qfloor_resp_le _ _ Hle) as Hf.
  pose proof (Qfloor_le q1) as L1. pose proof (Qlt_floor q1) as U1.
  pose proof (Qfloor_le q2) as L2. pose proof (Qlt_floor q2) as U2.
  destruct (Z.eq_dec (Qfloor q1) (Qfloor q2)) as [E | NE].
  - rewrite <- E in *.
    destruct (Qcompare_spec (q1 - inject_Z (Qfloor q1)) (1 # 2)),
             (Qcompare_spec (q2 - inject_Z (Qfloor q1)) (1 # 2));
      destruct (Z.even (Qfloor q1)); try lia; exfalso; lra.
  - destruct (Qcompare (q1 - inject_Z (Qfloor q1)) (1 # 2)),
             (Qcompare (q2 - inject_Z (Qfloor q2)) (1 # 2));
      destruct (Z.even (Qfloor q1)), (Z.even (Qfloor q2)); lia.
Qed.

Lemma pow10_pos (nd : nat) : 0 < inject_Z (Py.pow10 nd).
Proof.
  unfold Py.pow10. change 0 with (inject_Z 0). rewrite <- Zlt_Qlt.
  apply Z.pow_pos_nonneg; lia.
Qed.

Lemma round_mono (q1 q2 : Q) (nd : nat) : q1 <= q2 -> Py.round q1 nd <= Py.round q2 nd.
Proof.
  intros Hle. unfold Py.round. rewrite !Qred_correct.
  pose proof (pow10_pos nd) as Hp.
  apply Qmult_le_compat_r.
  - rewrite <- Zle_Qle. apply round_half_even_mono.
    apply Qmult_le_compat_r; [exact Hle | apply Qlt_le_weak, Hp].
  - apply Qlt_le_weak, Qinv_lt_0_compat, Hp.
Qed.

(** Rounding does not look at the representation of its argument. *)
Lemma round_comp (q1 q2 : Q) (nd : nat) : q1 == q2 -> Py.round q1 nd = Py.round q2 nd.
Proof.
  intros Heq. unfold Py.round. apply Qred_complete.
  assert (E : Py.round_half_even (q1 * inject_Z (Py.pow10 nd))
              = Py.round_half_even (q2 * inject_Z (Py.pow10 nd))).
  { apply Z.le_antisymm; apply round_half_even_mono; rewrite Heq; apply Qle_refl. }
  rewrite E. reflexivity.
Qed.

Lemma filter_length_mono (p p' : Q -> bool) (vals : list Q) :
  (forall v, p v = true -> p' v = true) ->
  (length (List.filter p vals) <= length (List.filter p' vals))%nat.
Proof.
  intros Himp. induction vals as [| v vals IH]; simpl; [lia |].
  destruct (p v) eqn:Hp.
  - rewrite (Himp v Hp). simpl. lia.
  - destruct (p' v); simpl; lia.
Qed.

Lemma count_mono (p p' : Q -> bool) (vals : list Q) :
  (forall v, p v = true -> p' v = true) -> Py.count p vals <= Py.count p' vals.
Proof.
  intros Himp. unfold Py.count, Py.len. rewrite <- Zle_Qle.
  apply Nat2Z.inj_le, filter_length_mono, Himp.
Qed.

Lemma le_trans_bound (v a b : Q) : a <= b -> Py.le v a = true -> Py.le v b = true.
Proof.
  unfold Py.le. rewrite !Qle_bool_iff. intros Hab Hva. eapply Qle_trans; eauto.
Qed.

Lemma len_pos {A} (x : A) (xs : list A) : 0 < Py.len (x :: xs).
Proof.
  unfold Py.len. change 0 with (inject_Z 0). rewrite <- Zlt_Qlt. simpl length. lia.
Qed.

(** A larger count gives a larger rounded percentage. *)
Lemma pct_mono (c1 c2 n : Q) : 0 < n -> c1 <= c2 ->
  Py.round (c1 / n * 100) 1 <= Py.round (c2 / n * 100) 1.
Proof.
  intros Hn Hc. apply round_mono.
  apply Qmult_le_compat_r; [| discriminate].
  apply Qmult_le_compat_r; [exact Hc |].
  apply Qlt_le_weak, Qinv_lt_0_compat, Hn.
Qed.

(** The rounded square root is within half a unit of the root: the
    squares of [k - 1/2] and [k + 1/2] bracket the argument. *)
Lemma round_sqrt_half_even_near (r : Q) : 0 <= r ->
  let k := inject_Z (Py.round_sqrt_half_even r) in
  0 <= k /\ r <= (k + (1 # 2)) * (k + (1 # 2)) /\
  (1 <= k -> (k - (1 # 2)) * (k - (1 # 2)) <= r).
Proof.
  intros Hr. unfold Py.round_sqrt_half_even.
  assert (H0 : (0 <= Qfloor r)%Z).
  { change 0%Z with (Qfloor 0). apply Qfloor_resp_le, Hr. }
  destruct (Z.sqrt_spec (Qfloor r) H0) as [Hlo Hhi].
  pose proof (Z.sqrt_nonneg (Qfloor r)) as Hs.
  set (f := Z.sqrt (Qfloor r)) in *.
  assert (Lo : inject_Z f * inject_Z f <= r).
  { rewrite <- inject_Z_mult. eapply Qle_trans; [| apply Qfloor_le].
    rewrite <- Zle_Qle. exact Hlo. }
  assert (Hi : r < (inject_Z f + 1) * (inject_Z f + 1)).
  { eapply Qlt_le_trans; [apply Qlt_floor |].
    change 1 with (inject_Z 1). rewrite <- !inject_Z_plus, <- inject_Z_mult.
    rewrite <- Zle_Qle. lia. }
  assert (F0 : 0 <= inject_Z f).
  { change 0 with (inject_Z 0). rewrite <- Zle_Qle. exact Hs. }
  assert (F1 : forall z, inject_Z (z + 1) == inject_Z z + 1).
  { intros z. rewrite inject_Z_plus. reflexivity. }
  assert (Fint : 1 <= inject_Z f \/ inject_Z f == 0).
  { destruct (Z.eq_dec f 0%Z) as [E0 | NZ]; [right; rewrite E0; reflexivity | left].
    change 1 with (inject_Z 1). rewrite <- Zle_Qle. lia. }
  destruct (Qcompare_spec r ((inject_Z f + (1 # 2)) * (inject_Z f + (1 # 2))))
    as [E | L | G]; [destruct (Z.even f) |..]; cbv zeta;
    rewrite ?F1; (split; [| split; [| intros Hk]]); destruct Fint; nra.
Qed.

(** The rounded integer is within one half of its argument. *)
Lemma round_half_even_near (q : Q) :
  - (1 # 2) <= inject_Z (Py.round_half_even q) - q <= 1 # 2.
Proof.
  unfold Py.round_half_even.
  pose proof (Qfloor_le q) as L. pose proof (Qlt_floor q) as U.
  rewrite inject_Z_plus in U. change (inject_Z 1) with 1 in U.
  destruct (Qcompare_spec (q - inject_Z (Qfloor q)) (1 # 2)) as [E | Hlt | Hgt];
    [destruct (Z.even (Qfloor q)) |..];
    rewrite ?inject_Z_plus; change (inject_Z 1) with 1; lra.
Qed.

Lemma round_value (q : Q) (nd : nat) :
  Py.round q nd ==
  inject_Z (Py.round_half_even (q * inject_Z (Py.pow10 nd))) / inject_Z (Py.pow10 nd).
Proof. unfold Py.round. apply Qred_correct. Qed.

(** [round(x, nd)] is [x] rounded to [nd] decimals. *)
Lemma round_rounded_to (q : Q) (nd : nat) : rounded_to nd q (Py.round q nd).
Proof.
  pose proof (pow10_pos nd) as Hp.
  pose proof (round_half_even_near (q * inject_Z (Py.pow10 nd))) as [L U].
  split; [eexists; apply round_value |].
  rewrite round_value.
  set (k := inject_Z (Py.round_half_even (q * inject_Z (Py.pow10 nd)))) in *.
  set (p := inject_Z (Py.pow10 nd)) in *. clearbody k p.
  assert (Hnz : ~ p == 0) by lra.
  assert (Hinv : 0 <= / p) by (apply Qlt_le_weak, Qinv_lt_0_compat, Hp).
  assert (E : k / p - q == (k - q * p) * / p) by (field; exact Hnz).
  rewrite E. unfold Qdiv. apply Qabs_Qle_condition. split.
  - assert (E2 : - ((1 # 2) * / p) == (- (1 # 2)) * / p) by ring.
    rewrite E2. apply Qmult_le_compat_r; [exact L | exact Hinv].
  - apply Qmult_le_compat_r; [exact U | exact Hinv].
Qed.

End Numbers.

(** ** The loops of [compute_accuracy] *)

Lemma METRICS_NoDup : NoDup METRICS.
Proof. apply (bool_decide_unpack _). vm_compute. reflexivity. Qed.

Lemma THRESHOLDS_total (metric : string) :
  metric ∈ METRICS -> is_Some (dict_get metric THRESHOLDS).
Proof.
  unfold METRICS. rewrite !elem_of_cons, elem_of_nil.
  intros [-> | [-> | [-> | [-> | [-> | []]]]]]; eexists; reflexivity.
Qed.

(** The name lookup gives the last actual record of that name. *)
Lemma index_by_name_from (acts : list ObservationRecord)
    (d0 : gmap string ObservationRecord) (name : string) :
  foldl (fun d a => <[region a := a]> d) d0 acts !! name =
  match matching_actual acts name with
  | Some a => Some a
  | None => d0 !! name
  end.
Proof.
  unfold matching_actual. revert d0.
  induction acts as [| a acts IH]; intros d0; [reflexivity |].
  cbn [foldl]. rewrite IH, filter_cons.
  destruct (decide (region a = name)) as [E | NE].
  - rewrite last_cons. destruct (last _); [reflexivity |].
    rewrite E. apply lookup_insert_eq.
  - destruct (last _); [reflexivity |]. apply lookup_insert_ne, NE.
Qed.

Lemma index_by_name_lookup (acts : list ObservationRecord) (name : string) :
  index_by_name acts !! name = matching_actual acts name.
Proof.
  unfold index_by_name. rewrite index_by_name_from.
  destruct (matching_actual acts name); [reflexivity | apply lookup_empty].
Qed.

Lemma alter_app_nil (metric : string) (diffs : gmap string (list Q)) :
  alter (fun vals => (vals ++ [])%list) metric diffs = diffs.
Proof. apply alter_id. intros vals _. apply app_nil_r. Qed.

Lemma compare_metric_step fc act rc diffs metric :
  compare_metric fc act (rc, diffs) metric =
  ({| rc_region := rc_region rc;
      rc_metrics := dict_set metric (metric_comparison fc act metric) (rc_metrics rc) |},
   alter (fun vals => (vals ++ pair_sample fc act metric)%list) metric diffs).
Proof.
  unfold compare_metric, pair_sample, metric_comparison. cbn.
  destruct (get fc metric), (get act metric); cbn; f_equal;
    symmetry; apply alter_app_nil.
Qed.

Lemma compare_metrics_fold fc act (ms : list string) rc diffs :
  foldl (compare_metric fc act) (rc, diffs) ms =
  ({| rc_region := rc_region rc;
      rc_metrics :=
        foldl (fun d m => dict_set m (metric_comparison fc act m) d) (rc_metrics rc) ms |},
   foldl (fun d m => alter (fun vals => (vals ++ pair_sample fc act m)%list) m d) diffs ms).
Proof.
  revert rc diffs. induction ms as [| m ms IH]; intros rc diffs.
  - destruct rc; reflexivity.
  - cbn [foldl]. rewrite compare_metric_step, IH. reflexivity.
Qed.

(** Assigning the five metric keys in turn to an empty dictionary lists them
    in the order of [METRICS]. *)
Lemma dict_of_metrics {V} (g : string -> V) :
  foldl (fun d m => dict_set m (g m) d) [] METRICS = map (fun m => (m, g m)) METRICS.
Proof. reflexivity. Qed.

Lemma foldl_alter_lookup (f : string -> list Q -> list Q) (ms : list string)
    (d : gmap string (list Q)) (k : string) :
  NoDup ms ->
  foldl (fun d m => alter (f m) m d) d ms !! k =
  if decide (k ∈ ms) then f k <$> d !! k else d !! k.
Proof.
  intros Hnd. revert d. induction Hnd as [| m ms Hm Hnd IH]; intros d.
  - cbn. rewrite decide_False by apply not_elem_of_nil. reflexivity.
  - cbn [foldl]. rewrite IH.
    destruct (decide (k = m)) as [-> | NE].
    + rewrite (decide_False (P := m ∈ ms)) by exact Hm.
      rewrite decide_True by apply list_elem_of_here. apply lookup_alter_eq.
    + rewrite lookup_alter_ne by congruence.
      destruct (decide (k ∈ ms)) as [Hk | Hk].
      * rewrite decide_True by (apply list_elem_of_further, Hk). reflexivity.
      * rewrite decide_False; [reflexivity |].
        rewrite elem_of_cons. intros [? | ?]; [apply NE | apply Hk]; assumption.
Qed.

Lemma compare_region_step abn cs diffs fc :
  compare_region abn (cs, diffs) fc =
  match abn !! region fc with
  | Some act =>
      ((cs ++ [region_comparison fc act])%list,
       foldl (fun d m => alter (fun vals => (vals ++ pair_sample fc act m)%list) m d)
             diffs METRICS)
  | None => (cs, diffs)
  end.
Proof.
  unfold compare_region. destruct (abn !! region fc) as [act |]; [| reflexivity].
  rewrite compare_metrics_fold. cbn [rc_region rc_metrics].
  rewrite dict_of_metrics. reflexivity.
Qed.

Lemma diffs_at_step abn cs diffs fc metric :
  metric ∈ METRICS -> is_Some (diffs !! metric) ->
  let diffs' := (compare_region abn (cs, diffs) fc).2 in
  is_Some (diffs' !! metric) /\
  diffs_at diffs' metric = (diffs_at diffs metric ++ sample_in abn metric fc)%list.
Proof.
  intros Hin [vals Hvals]. rewrite compare_region_step. unfold sample_in, diffs_at.
  destruct (abn !! region fc) as [act |]; cbn [snd].
  - rewrite foldl_alter_lookup by apply METRICS_NoDup.
    rewrite decide_True by exact Hin. rewrite Hvals. cbn. eauto.
  - rewrite Hvals, app_nil_r. cbn. eauto.
Qed.

Lemma compare_regions_from abn (fcs : list ObservationRecord) cs diffs :
  (foldl (compare_region abn) (cs, diffs) fcs).1 =
    (cs ++ omap (fun fc => region_comparison fc <$> abn !! region fc) fcs)%list /\
  forall metric, metric ∈ METRICS -> is_Some (diffs !! metric) ->
    diffs_at (foldl (compare_region abn) (cs, diffs) fcs).2 metric =
    (diffs_at diffs metric ++ flat_map (sample_in abn metric) fcs)%list.
Proof.
  revert cs diffs. induction fcs as [| fc fcs IH]; intros cs diffs.
  - cbn. rewrite app_nil_r. split; [reflexivity |]. intros. rewrite app_nil_r. reflexivity.
  - cbn [foldl]. destruct (compare_region abn (cs, diffs) fc) as [cs' diffs'] eqn:E.
    destruct (IH cs' diffs') as [IH1 IH2]. split.
    + rewrite IH1. pose proof (compare_region_step abn cs diffs fc) as S.
      rewrite E in S. cbn [omap list_omap].
      destruct (abn !! region fc) as [act |]; cbn; inversion S; subst.
      * rewrite <- app_assoc. reflexivity.
      * reflexivity.
    + intros metric Hin Hsome.
      destruct (diffs_at_step abn cs diffs fc metric Hin Hsome) as [Hs Hd].
      rewrite E in Hs, Hd. cbn [snd] in Hs, Hd.
      rewrite (IH2 metric Hin Hs), Hd. cbn [flat_map].
      rewrite <- app_assoc. reflexivity.
Qed.

Lemma empty_diffs_lookup (metric : string) :
  metric ∈ METRICS -> empty_diffs !! metric = Some [].
Proof.
  unfold METRICS. rewrite !elem_of_cons, elem_of_nil.
  intros [-> | [-> | [-> | [-> | [-> | []]]]]]; reflexivity.
Qed.

Lemma sample_in_index acts metric fc :
  sample_in (index_by_name acts) metric fc = sample acts metric fc.
Proof. unfold sample_in, sample. rewrite index_by_name_lookup. reflexivity. Qed.

(** The comparison list: one entry per matched forecast record, in forecast
    order. *)
Lemma compare_regions_comparisons acts fcs :
  (compare_regions (index_by_name acts) fcs).1 =
  omap (fun fc => region_comparison fc <$> matching_actual acts (region fc)) fcs.
Proof.
  unfold compare_regions.
  destruct (compare_regions_from (index_by_name acts) fcs [] empty_diffs) as [H _].
  rewrite H. cbn [app]. clear H.
  induction fcs as [| fc fcs IH]; [reflexivity |].
  cbn [omap list_omap]. rewrite index_by_name_lookup, IH. reflexivity.
Qed.

(** The diff list of each metric after the region loop. *)
Lemma compare_regions_diffs acts fcs metric :
  metric ∈ METRICS ->
  diffs_at (compare_regions (index_by_name acts) fcs).2 metric = metric_diffs acts metric fcs.
Proof.
  intros Hin. unfold compare_regions, metric_diffs.
  destruct (compare_regions_from (index_by_name acts) fcs [] empty_diffs) as [_ H].
  rewrite H by (try rewrite empty_diffs_lookup; eauto).
  unfold diffs_at at 1. rewrite empty_diffs_lookup by exact Hin. cbn [default app].
  apply flat_map_ext. intros fc. apply sample_in_index.
Qed.

Lemma summarise_fold T diffs :
  foldl (summarise_metric T diffs) [] METRICS =
  map (fun m => (m, summary_entry T m (diffs_at diffs m))) METRICS.
Proof.
  rewrite <- (dict_of_metrics (fun m => summary_entry T m (diffs_at diffs m))).
  generalize (@nil (string * option MetricSummary)).
  induction METRICS as [| m ms IH]; intros s; [reflexivity |].
  cbn [foldl]. rewrite <- IH. f_equal.
  unfold summarise_metric, summary_entry. destruct (diffs_at diffs m); reflexivity.
Qed.

Lemma omap_id_values {V} (d : list (string * option V)) :
  omap id (dict_values d) = omap snd d.
Proof.
  unfold dict_values. induction d as [| [k [v |]] d IH]; cbn; rewrite ?IH; reflexivity.
Qed.

(** Reading a key of a dictionary that lists the metric keys. *)
Lemma dict_get_metrics {V} (g : string -> V) (metric : string) :
  dict_get metric (map (fun m => (m, g m)) METRICS) =
  if decide (metric ∈ METRICS) then Some (g metric) else None.
Proof.
  unfold METRICS. cbn [map dict_get].
  repeat match goal with
  | |- context [String.eqb ?k metric] =>
      destruct (String.eqb_spec k metric) as [<- | ?];
      [rewrite decide_True by (rewrite !elem_of_cons; tauto); reflexivity |]
  end.
  rewrite decide_False; [reflexivity |].
  rewrite !elem_of_cons, elem_of_nil. intuition congruence.
Qed.

(** *** What [compute_accuracy] returns *)

Lemma compute_summary T fcs acts :
  summary (compute_accuracy_with T fcs acts) =
  map (fun m => (m, summary_entry T m (diffs_at (compare_regions (index_by_name acts) fcs).2 m)))
      METRICS.
Proof.
  unfold compute_accuracy_with.
  destruct (compare_regions (index_by_name acts) fcs) as [cs diffs].
  cbn [summary snd]. apply summarise_fold.
Qed.

Lemma compute_comparisons T fcs acts :
  comparisons (compute_accuracy_with T fcs acts) =
  omap (fun fc => region_comparison fc <$> matching_actual acts (region fc)) fcs.
Proof.
  rewrite <- compare_regions_comparisons. unfold compute_accuracy_with.
  destruct (compare_regions (index_by_name acts) fcs) as [cs diffs]. reflexivity.
Qed.

Lemma compute_scores T fcs acts :
  let r := compute_accuracy_with T fcs acts in
  overall_score r =
    match valid_summaries r with
    | [] => 0%Q
    | _ :: _ => Py.round (mean (map wide_pct (valid_summaries r))) 1
    end /\
  avg_std_dev r =
    Py.round match valid_summaries r with
             | [] => 0%Q
             | _ :: _ => mean (map std_dev (valid_summaries r))
             end 2.
Proof.
  unfold valid_summaries, mean, compute_accuracy_with.
  destruct (compare_regions (index_by_name acts) fcs) as [cs diffs].
  cbn [summary overall_score avg_std_dev]. rewrite omap_id_values.
  unfold Py.len. rewrite !length_map. split; reflexivity.
Qed.

(** The summary entry of a metric key. *)
Lemma summary_lookup T fcs acts metric :
  dict_get metric (summary (compute_accuracy_with T fcs acts)) =
  if decide (metric ∈ METRICS)
  then Some (summary_entry T metric
               (diffs_at (compare_regions (index_by_name acts) fcs).2 metric))
  else None.
Proof.
  rewrite compute_summary.
  apply (dict_get_metrics
           (fun m => summary_entry T m
                       (diffs_at (compare_regions (index_by_name acts) fcs).2 m))).
Qed.

Lemma summary_lookup_Some T fcs acts metric s :
  dict_get metric (summary (compute_accuracy_with T fcs acts)) = Some (Some s) ->
  exists v vals,
    diffs_at (compare_regions (index_by_name acts) fcs).2 metric = v :: vals /\
    metric ∈ METRICS /\
    s = metric_summary (thresholds_of T metric) (v :: vals).
Proof.
  rewrite summary_lookup. destruct (decide (metric ∈ METRICS)) as [Hin |]; [| discriminate].
  unfold summary_entry.
  destruct (diffs_at _ metric) as [| v vals]; [discriminate |].
  intros [= <-]. eauto.
Qed.

Lemma metric_diffs_app acts metric fcs1 fcs2 :
  metric_diffs acts metric (fcs1 ++ fcs2) =
  (metric_diffs acts metric fcs1 ++ metric_diffs acts metric fcs2)%list.
Proof. apply flat_map_app. Qed.

Lemma sample_null acts metric fc act :
  matching_actual acts (region fc) = Some act ->
  get fc metric = None \/ get act metric = None ->
  sample acts metric fc = [] /\
  metric_comparison fc act metric =
    {| mc_forecast := get fc metric; mc_actual := get act metric; mc_diff := None |}.
Proof.
  intros Hm Hnull. unfold sample, metric_comparison. rewrite Hm. cbn.
  destruct Hnull as [-> | ->]; destruct (get _ metric); auto.
Qed.

Local Open Scope list_scope.

Lemma matching_actual_is_Some acts name :
  is_Some (matching_actual acts name) <-> name ∈ map region acts.
Proof.
  unfold matching_actual. rewrite last_is_Some. split.
  - intros Hne. destruct (filter _ acts) as [| a l] eqn:E; [congruence |].
    assert (Ha : a ∈ filter (fun a => region a = name) acts) by (rewrite E; left).
    apply list_elem_of_filter in Ha as [<- Ha].
    apply (list_elem_of_fmap_2 region), Ha.
  - intros Hin Hnil. apply (list_elem_of_fmap region) in Hin as (a & -> & Ha).
    exact (filter_nil_not_elem_of _ _ a Hnil eq_refl Ha).
Qed.

(** ** The claims about the accuracy engine *)

(** C1 — null propagation.  For a forecast record whose region is matched
    and a metric whose forecast or actual value is null, the region's
    comparison holds that metric key with both values preserved and a null
    diff, and the record adds nothing to the metric's diff list: the list, and
    with it the metric's summary (sample_size, mean_diff, std_dev and the three
    percentages), is what it is without the record. *)
Theorem C1_null_propagation (fcs1 fcs2 : list ObservationRecord)
    (fc act : ObservationRecord) (acts : list ObservationRecord) (metric : string) :
  metric ∈ METRICS ->
  index_by_name acts !! region fc = Some act ->
  get fc metric = None \/ get act metric = None ->
  let r := compute_accuracy (fcs1 ++ fc :: fcs2) acts in
  (exists rc,
     comparisons r !! length (comparisons (compute_accuracy fcs1 acts)) = Some rc /\
     rc_region rc = region fc /\
     dict_get metric (rc_metrics rc) =
       Some {| mc_forecast := get fc metric; mc_actual := get act metric;
               mc_diff := None |}) /\
  diffs_at (compare_regions (index_by_name acts) (fcs1 ++ fc :: fcs2)).2 metric =
    diffs_at (compare_regions (index_by_name acts) (fcs1 ++ fcs2)).2 metric /\
  dict_get metric (summary r) =
    dict_get metric (summary (compute_accuracy (fcs1 ++ fcs2) acts)).
Proof.
  intros Hin Hm Hnull r. rewrite index_by_name_lookup in Hm.
  destruct (sample_null acts metric fc act Hm Hnull) as [Hs Hc].
  assert (Hd : diffs_at (compare_regions (index_by_name acts) (fcs1 ++ fc :: fcs2)).2 metric =
               diffs_at (compare_regions (index_by_name acts) (fcs1 ++ fcs2)).2 metric).
  { rewrite !compare_regions_diffs by exact Hin. rewrite !metric_diffs_app.
    unfold metric_diffs at 2. cbn [flat_map]. rewrite Hs. reflexivity. }
  split; [| split; [exact Hd |]].
  - exists (region_comparison fc act). unfold r, compute_accuracy.
    rewrite !compute_comparisons, omap_app. cbn [omap list_omap]. rewrite Hm. cbn [fmap option_fmap option_map].
    split; [apply list_lookup_middle; reflexivity |]. split; [reflexivity |].
    cbn [region_comparison rc_metrics].
    rewrite (dict_get_metrics (metric_comparison fc act)), decide_True by exact Hin.
    f_equal. exact Hc.
  - unfold r, compute_accuracy. rewrite !summary_lookup, Hd. reflexivity.
Qed.

(** A matched region whose forecast lacks the minimum temperature. *)
Lemma C1_null_propagation_witness :
  let fc := mkrec "B" (Some 20%Q) None (Some 3%Q) None None in
  let act := mkrec "B" (Some (213 # 10)%Q) (Some 11%Q) None None None in
  let r := compute_accuracy ([only_high_temp "A" 19] ++ fc :: []) [act] in
  (exists rc,
     comparisons r !! length (comparisons (compute_accuracy [only_high_temp "A" 19] [act]))
       = Some rc /\
     rc_region rc = "B" /\
     dict_get "low_temp" (rc_metrics rc) =
       Some {| mc_forecast := None; mc_actual := Some 11%Q; mc_diff := None |}) /\
  diffs_at (compare_regions (index_by_name [act]) ([only_high_temp "A" 19] ++ fc :: [])).2
           "low_temp" =
    diffs_at (compare_regions (index_by_name [act]) ([only_high_temp "A" 19] ++ [])).2
             "low_temp" /\
  dict_get "low_temp" (summary r) =
    dict_get "low_temp" (summary (compute_accuracy ([only_high_temp "A" 19] ++ []) [act])).
Proof.
  intros fc act.
  apply (C1_null_propagation [only_high_temp "A" 19] [] fc act [act] "low_temp").
  - apply (bool_decide_unpack _). vm_compute. reflexivity.
  - vm_compute. reflexivity.
  - left. reflexivity.
Defined.

(** C2 — matching by name only.  The comparison set has exactly one entry
    for each forecast record whose region name is the name of some actual
    record, in forecast order; an unmatched forecast region and an actual
    region without forecast give no entry.  Forecast regions A, B against
    actual regions B, C give exactly region B. *)
Theorem C2_matching_by_name (fcs acts : list ObservationRecord) :
  map rc_region (comparisons (compute_accuracy fcs acts)) =
    List.filter (fun name => bool_decide (name ∈ map region acts)) (map region fcs) /\
  map rc_region
      (comparisons (compute_accuracy [only_high_temp "A" 20; only_high_temp "B" 21]
                                     [only_high_temp "B" 22; only_high_temp "C" 23]))
    = ["B"].
Proof.
  split; [| vm_compute; reflexivity].
  unfold compute_accuracy. rewrite compute_comparisons.
  induction fcs as [| fc fcs IH]; [reflexivity |].
  cbn [omap list_omap map List.filter].
  pose proof (matching_actual_is_Some acts (region fc)) as Hiff.
  destruct (matching_actual acts (region fc)) as [act |].
  - rewrite bool_decide_eq_true_2 by (apply Hiff; eauto).
    cbn. rewrite <- IH. reflexivity.
  - rewrite bool_decide_eq_false_2.
    + cbn. exact IH.
    + intros Hin. apply Hiff in Hin as [? ?]. discriminate.
Qed.

Lemma thresholds_of_set_exact e T metric :
  near (thresholds_of (set_exact e T) metric) = near (thresholds_of T metric) /\
  wide (thresholds_of (set_exact e T) metric) = wide (thresholds_of T metric) /\
  unit (thresholds_of (set_exact e T) metric) = unit (thresholds_of T metric).
Proof.
  unfold thresholds_of, set_exact.
  induction T as [| [k t] T IH]; cbn; [auto |].
  destruct (String.eqb k metric); cbn; auto.
Qed.

(** The summary of a metric reads [near], [wide] and [unit] of its
    thresholds and nothing else. *)
Lemma metric_summary_ext th th' vals :
  near th = near th' -> wide th = wide th' -> unit th = unit th' ->
  metric_summary th vals = metric_summary th' vals.
Proof. unfold metric_summary. intros -> -> ->. reflexivity. Qed.

Lemma compute_accuracy_set_exact e T fcs acts :
  compute_accuracy_with (set_exact e T) fcs acts = compute_accuracy_with T fcs acts.
Proof.
  unfold compute_accuracy_with.
  destruct (compare_regions (index_by_name acts) fcs) as [cs diffs].
  rewrite !summarise_fold.
  assert (E : map (fun m => (m, summary_entry (set_exact e T) m (diffs_at diffs m))) METRICS
            = map (fun m => (m, summary_entry T m (diffs_at diffs m))) METRICS).
  { apply map_ext. intros m. unfold summary_entry.
    destruct (diffs_at diffs m); [reflexivity |].
    destruct (thresholds_of_set_exact e T m) as (H1 & H2 & H3).
    rewrite (metric_summary_ext _ _ _ H1 H2 H3). reflexivity. }
  rewrite E. reflexivity.
Qed.

Lemma exact_pct_spec th (v : Q) (vals : list Q) :
  exact_pct (metric_summary th (v :: vals)) = pct_within (1 # 2) (v :: vals).
Proof.
  unfold metric_summary, pct_within, Py.count, Py.le. cbn [exact_pct].
  apply round_comp. pose proof (len_pos v vals) as Hn.
  field. intros E. rewrite E in Hn. discriminate.
Qed.

(** C3 — the exact cutoff.  In a non-null summary [exact_pct] is the
    percentage of the metric's diffs that are at most the constant 0.5, and
    the configured [exact] field is never read: any value in its place gives
    the same result.  One region with forecast high_temp 20.0 and actual 21.3
    gives diff 1.3 and, under near 2 and wide 4, exact_pct 0.0, near_pct 100.0,
    wide_pct 100.0, mean_diff 1.3, std_dev 0.0 and sample_size 1. *)
Theorem C3_exact_cutoff (T : list (string * Thresholds)) (e : Q)
    (fcs acts : list ObservationRecord) (metric : string) (s : MetricSummary) :
  dict_get metric (summary (compute_accuracy_with T fcs acts)) = Some (Some s) ->
  exact_pct s =
    pct_within (1 # 2) (diffs_at (compare_regions (index_by_name acts) fcs).2 metric) /\
  compute_accuracy_with (set_exact e T) fcs acts = compute_accuracy_with T fcs acts /\
  let r := compute_accuracy [only_high_temp "Sydney" 20]
                            [only_high_temp "Sydney" (213 # 10)] in
  map rc_metrics (comparisons r) =
    [ ("high_temp", {| mc_forecast := Some 20%Q; mc_actual := Some (213 # 10)%Q;
                       mc_diff := Some (13 # 10)%Q |})
      :: map (fun m => (m, {| mc_forecast := None; mc_actual := None; mc_diff := None |}))
             ["low_temp"; "wind_speed"; "humidity"; "rain"] ] /\
  dict_get "high_temp" (summary r) =
    Some (Some {| exact_pct := 0; near_pct := 100; near_threshold := 2;
                  wide_pct := 100; wide_threshold := 4; mean_diff := 13 # 10;
                  std_dev := 0; ms_unit := "°C"; sample_size := 1 |}).
Proof.
  intros Hs. split; [| split; [apply compute_accuracy_set_exact |]].
  - apply summary_lookup_Some in Hs as (v & vals & -> & _ & ->).
    apply exact_pct_spec.
  - cbv zeta. split; vm_compute; reflexivity.
Qed.

Lemma C3_exact_cutoff_witness :
  let r := compute_accuracy [only_high_temp "Sydney" 20]
                            [only_high_temp "Sydney" (213 # 10)] in
  dict_get "high_temp" (summary r) =
    Some (Some {| exact_pct := 0; near_pct := 100; near_threshold := 2;
                  wide_pct := 100; wide_threshold := 4; mean_diff := 13 # 10;
                  std_dev := 0; ms_unit := "°C"; sample_size := 1 |}) /\
  (0 : Q) =
    pct_within (1 # 2)
      (diffs_at (compare_regions (index_by_name [only_high_temp "Sydney" (213 # 10)])
                                 [only_high_temp "Sydney" 20]).2 "high_temp") /\
  compute_accuracy_with (set_exact 5 THRESHOLDS) [only_high_temp "Sydney" 20]
                        [only_high_temp "Sydney" (213 # 10)] = r.
Proof.
  intros r.
  assert (H : dict_get "high_temp" (summary r) =
    Some (Some {| exact_pct := 0; near_pct := 100; near_threshold := 2;
                  wide_pct := 100; wide_threshold := 4; mean_diff := 13 # 10;
                  std_dev := 0; ms_unit := "°C"; sample_size := 1 |})).
  { vm_compute. reflexivity. }
  split; [exact H |].
  destruct (C3_exact_cutoff THRESHOLDS 5 _ _ _ _ H) as (H1 & H2 & _).
  split; [exact H1 | exact H2].
Defined.

(** C4 — threshold monotonicity.  In a non-null summary, computed from a
    non-empty diff list, exact_pct <= near_pct <= wide_pct whenever
    0.5 <= near_threshold <= wide_threshold. *)
Theorem C4_threshold_monotonicity (T : list (string * Thresholds))
    (fcs acts : list ObservationRecord) (metric : string) (s : MetricSummary) :
  dict_get metric (summary (compute_accuracy_with T fcs acts)) = Some (Some s) ->
  ((1 # 2) <= near_threshold s)%Q ->
  (near_threshold s <= wide_threshold s)%Q ->
  (exact_pct s <= near_pct s)%Q /\ (near_pct s <= wide_pct s)%Q.
Proof.
  intros Hs. apply summary_lookup_Some in Hs as (v & vals & _ & _ & ->).
  cbn [metric_summary near_threshold wide_threshold exact_pct near_pct wide_pct].
  intros Hnear Hwide. pose proof (len_pos v vals) as Hn.
  split; apply pct_mono; try exact Hn; apply count_mono; intros x;
    apply le_trans_bound; assumption.
Qed.

(** Every configured metric satisfies the premises of the monotonicity. *)
Lemma configured_thresholds_ordered (metric : string) :
  metric ∈ METRICS ->
  ((1 # 2) <= near (thresholds_of THRESHOLDS metric))%Q /\
  (near (thresholds_of THRESHOLDS metric) <= wide (thresholds_of THRESHOLDS metric))%Q.
Proof.
  unfold METRICS. rewrite !elem_of_cons, elem_of_nil.
  intros [-> | [-> | [-> | [-> | [-> | []]]]]]; split; discriminate.
Qed.

Lemma C4_threshold_monotonicity_witness :
  let s := {| exact_pct := 0; near_pct := 100; near_threshold := 2;
              wide_pct := 100; wide_threshold := 4; mean_diff := 13 # 10;
              std_dev := 0; ms_unit := "°C"; sample_size := 1 |} in
  (exact_pct s <= near_pct s)%Q /\ (near_pct s <= wide_pct s)%Q.
Proof.
  intros s.
  apply (C4_threshold_monotonicity THRESHOLDS [only_high_temp "Sydney" 20]
           [only_high_temp "Sydney" (213 # 10)] "high_temp" s).
  - vm_compute. reflexivity.
  - discriminate.
  - discriminate.
Defined.

Lemma sample_length acts metric fc :
  length (sample acts metric fc) = if yields_sample acts metric fc then 1%nat else 0%nat.
Proof.
  unfold sample, yields_sample, metric_comparison. cbn [mc_diff].
  destruct (matching_actual acts (region fc)) as [act |]; [| reflexivity].
  destruct (get fc metric), (get act metric); reflexivity.
Qed.

Lemma metric_diffs_length acts metric fcs :
  length (metric_diffs acts metric fcs) = length (List.filter (yields_sample acts metric) fcs).
Proof.
  unfold metric_diffs. induction fcs as [| fc fcs IH]; [reflexivity |].
  cbn [flat_map List.filter]. rewrite length_app, sample_length, IH.
  destruct (yields_sample acts metric fc); reflexivity.
Qed.

Lemma metric_diffs_nil acts metric fcs :
  (forall fc, fc ∈ fcs -> yields_sample acts metric fc = false) ->
  metric_diffs acts metric fcs = [].
Proof.
  intros Hno. apply length_zero_iff_nil. rewrite metric_diffs_length.
  induction fcs as [| fc fcs IH]; [reflexivity |].
  cbn [List.filter]. rewrite (Hno fc) by left.
  apply IH. intros fc' Hin. apply Hno. right. exact Hin.
Qed.

Lemma metric_diffs_none acts metric fcs :
  metric_diffs acts metric fcs = [] ->
  forall fc, fc ∈ fcs -> yields_sample acts metric fc = false.
Proof.
  intros Hnil fc Hin. apply (f_equal (@length Q)) in Hnil.
  rewrite metric_diffs_length in Hnil. cbn [length] in Hnil.
  destruct (yields_sample acts metric fc) eqn:E; [| reflexivity].
  assert (Hf : fc ∈ List.filter (yields_sample acts metric) fcs).
  { apply list_elem_of_In, filter_In. split; [apply list_elem_of_In, Hin | exact E]. }
  destruct (List.filter _ fcs); [inversion Hf | discriminate].
Qed.

(** C5 — the zero-data case.  A metric gets a null summary exactly when no
    matched region has both of its values, and no summary has sample_size 0.
    When every summary is null, overall_score and avg_std_dev are 0; otherwise
    overall_score is the mean of wide_pct over the non-null summaries rounded
    to 1 decimal and avg_std_dev the mean of their std_dev rounded to 2
    decimals, each a value of that many decimals at most half a unit of its
    last place from the mean.  High temperatures off by 1 and 2 and low
    temperatures off by 0 and 6 give wide_pct 100 and 50 and std_dev 0.5 and
    3, hence overall_score 75 and avg_std_dev 1.75. *)
Theorem C5_zero_data (fcs acts : list ObservationRecord) :
  let r := compute_accuracy fcs acts in
  (forall metric, metric ∈ METRICS ->
     (dict_get metric (summary r) = Some None <->
      forall fc, fc ∈ fcs -> yields_sample acts metric fc = false)) /\
  (forall metric s, dict_get metric (summary r) = Some (Some s) ->
     (0 < sample_size s)%nat) /\
  (valid_summaries r = [] -> overall_score r = 0%Q /\ avg_std_dev r = 0%Q) /\
  (valid_summaries r <> [] ->
     rounded_to 1 (mean (map wide_pct (valid_summaries r))) (overall_score r) /\
     rounded_to 2 (mean (map std_dev (valid_summaries r))) (avg_std_dev r)) /\
  let data := compute_accuracy two_region_forecast two_region_actual in
  map (fun s => (wide_pct s, std_dev s, sample_size s)) (valid_summaries data) =
    [ (100%Q, (1 # 2)%Q, 2%nat); (50%Q, 3%Q, 2%nat) ] /\
  overall_score data = 75%Q /\ avg_std_dev data = (7 # 4)%Q.
Proof.
  intros r. unfold r, compute_accuracy.
  destruct (compute_scores THRESHOLDS fcs acts) as [Ho Ha].
  split; [| split; [| split; [| split]]].
  - intros metric Hin. rewrite summary_lookup, decide_True by exact Hin.
    rewrite compare_regions_diffs by exact Hin. split.
    + intros Hnone. apply metric_diffs_none.
      destruct (metric_diffs acts metric fcs); [reflexivity | discriminate].
    + intros Hno. rewrite metric_diffs_nil by assumption. reflexivity.
  - intros metric s Hs. apply summary_lookup_Some in Hs as (v & vals & _ & _ & ->).
    cbn. lia.
  - intros Hnil. rewrite Ho, Ha, Hnil. split; reflexivity.
  - intros Hne. rewrite Ho, Ha.
    destruct (valid_summaries _); [congruence |]. split; apply round_rounded_to.
  - vm_compute. repeat split; reflexivity.
Qed.

(** The zero-data case happens: a matched region with no metric on the
    actual side. *)
Example zero_data_example :
  compute_accuracy [only_high_temp "Sydney" 20] [mkrec "Sydney" None None None None None]
  = {| summary := map (fun m => (m, None)) METRICS;
       overall_score := 0; avg_std_dev := 0;
       comparisons :=
         [ {| rc_region := "Sydney";
              rc_metrics :=
                ("high_temp", {| mc_forecast := Some 20%Q; mc_actual := None;
                                 mc_diff := None |})
                :: map (fun m => (m, {| mc_forecast := None; mc_actual := None;
                                        mc_diff := None |}))
                       ["low_temp"; "wind_speed"; "humidity"; "rain"] |} ] |}.
Proof. vm_compute. reflexivity. Qed.

(** C10 — duplicate region names.  The name lookup gives the last actual
    record of a name, so every forecast record of that name is compared with
    it; each forecast record of a matched name gives its own comparison entry,
    and sample_size counts every forecast record that yields a sample, repeated
    names included. *)
Theorem C10_duplicate_names (fcs acts : list ObservationRecord) :
  let r := compute_accuracy fcs acts in
  (forall name,
     index_by_name acts !! name = last (filter (fun a => region a = name) acts)) /\
  comparisons r =
    omap (fun fc => region_comparison fc
                      <$> last (filter (fun a => region a = region fc) acts)) fcs /\
  (forall metric s, dict_get metric (summary r) = Some (Some s) ->
     sample_size s = length (List.filter (yields_sample acts metric) fcs)) /\
  let dup := compute_accuracy [only_high_temp "A" 20; only_high_temp "A" 22]
                              [only_high_temp "A" 21; only_high_temp "A" 25] in
  map (fun rc => dict_get "high_temp" (rc_metrics rc)) (comparisons dup) =
    [ Some {| mc_forecast := Some 20%Q; mc_actual := Some 25%Q; mc_diff := Some 5%Q |};
      Some {| mc_forecast := Some 22%Q; mc_actual := Some 25%Q; mc_diff := Some 3%Q |} ] /\
  sample_size <$> (dict_get "high_temp" (summary dup) ≫= id) = Some 2%nat.
Proof.
  intros r. unfold r, compute_accuracy. split; [| split; [| split; [| split]]].
  - intros name. apply index_by_name_lookup.
  - apply compute_comparisons.
  - intros metric s Hs. apply summary_lookup_Some in Hs as (v & vals & Hd & Hin & ->).
    cbn [metric_summary sample_size]. rewrite <- Hd, compare_regions_diffs by exact Hin.
    apply metric_diffs_length.
  - vm_compute. reflexivity.
  - vm_compute. reflexivity.
Qed.

(** ** The observation fetchers *)

Lemma py_sum_raises (vals : list (option Q)) (e : PyError) :
  foldl (fun acc v =>
           do total <- acc;
           match v with
           | Some x => ret (total + x)%Q
           | None => raise TypeError
           end) (raise e) vals = raise e.
Proof. induction vals as [| v vals IH]; [reflexivity | exact IH]. Qed.

(** A null anywhere among the summed values is a [TypeError]. *)
Lemma py_sum_null (vals : list (option Q)) : None ∈ vals -> py_sum vals = raise TypeError.
Proof.
  unfold py_sum. generalize 0%Q.
  induction vals as [| v vals IH]; intros q Hin; [inversion Hin |].
  cbn [foldl bind ret]. destruct v as [x |].
  - apply IH. apply elem_of_cons in Hin as [? | ?]; [discriminate | assumption].
  - apply py_sum_raises.
Qed.

(** Forecast mode fails on every response with a null among its hourly
    humidity values. *)
Lemma fetch_forecast_null_humidity (p : Provider) (reg : Region) (day : string)
    (data : Response) (h : Hourly) (vals : list (option Q)) :
  p reg day = ret data -> hourly data = Some h ->
  relative_humidity_2m h = Some vals -> None ∈ vals ->
  fetch_forecast p reg day = raise TypeError.
Proof.
  intros Hp Hh Hv Hin. unfold fetch_forecast. rewrite Hp. cbn [bind ret].
  rewrite Hh. cbn [default from_option id]. rewrite Hv. cbn [default from_option id].
  destruct vals as [| v vals]; [inversion Hin |].
  rewrite (py_sum_null _ Hin). reflexivity.
Qed.

(** C6 — tolerance of the fetchers, evaluated where it fails.  With a null
    among the hourly humidity values forecast mode raises a TypeError, where
    actual mode on the same response drops the null and returns the record;
    an empty daily array raises an IndexError in forecast mode, and so does a
    missing daily key in actual mode once the target date is not at index
    0. *)
Theorem C6_fetcher_failures :
  fetch_forecast (fun _ d => ret (null_humidity_response d)) sydney "2024-01-01"
    = raise TypeError /\
  fetch_actual (fun _ d => ret (null_humidity_response d)) sydney "2024-01-01"
    = ret {| region := "Sydney"; lat := -(3387 # 100); lon := 15121 # 100;
             date := "2024-01-01";
             high_temp := Some 25%Q; low_temp := Some 15%Q; wind_speed := Some 12%Q;
             humidity := Some 50%Q; rain := Some 0%Q |} /\
  fetch_forecast (fun _ d => ret (short_daily_response d)) sydney "2024-01-01"
    = raise IndexError /\
  fetch_actual (fun _ d => ret (missing_key_response "2023-12-30" "2023-12-31" d))
               sydney "2024-01-01"
    = raise IndexError.
Proof. repeat split; vm_compute; reflexivity. Qed.

(** ** The forecast-collection phase *)

Lemma collect_region_step (fetch : Region -> result ObservationRecord)
    (recs : list ObservationRecord) (w : World) (reg : Region) :
  collect_region fetch (recs, w) reg =
  (recs ++ option_list (collected fetch reg),
   {| store := store w; trace := trace w ++ region_events fetch reg |}).
Proof.
  unfold collect_region, collected, region_events.
  destruct (fetch reg); unfold emit; cbn [fst snd store trace option_list];
    rewrite <- ?app_assoc, ?app_nil_r; reflexivity.
Qed.

Lemma collect_regions_fold (fetch : Region -> result ObservationRecord)
    (regs : list Region) (recs : list ObservationRecord) (w : World) :
  foldl (collect_region fetch) (recs, w) regs =
  (recs ++ omap (collected fetch) regs,
   {| store := store w; trace := trace w ++ flat_map (region_events fetch) regs |}).
Proof.
  revert recs w. induction regs as [| reg regs IH]; intros recs w.
  - cbn. rewrite !app_nil_r. destruct w; reflexivity.
  - cbn [foldl]. rewrite collect_region_step, IH.
    cbn [omap list_omap flat_map store trace].
    rewrite <- !app_assoc. destruct (collected fetch reg); reflexivity.
Qed.

Lemma omap_length_le {A B} (f : A -> option B) (l : list A) :
  (length (omap f l) <= length l)%nat.
Proof.
  induction l as [| x l IH]; [reflexivity |].
  cbn [omap list_omap]. destruct (f x); cbn; lia.
Qed.

Lemma omap_length_full {A B} (f : A -> option B) (l : list A) :
  length (omap f l) = length l <-> Forall (fun x => is_Some (f x)) l.
Proof.
  induction l as [| x l IH]; [split; [constructor | reflexivity] |].
  cbn [omap list_omap]. pose proof (omap_length_le f l) as Hle.
  destruct (f x) as [y |] eqn:E; cbn [length option_fmap]; split.
  - intros [= H]. constructor; [rewrite E; eauto | apply IH, H].
  - intros H. inversion H; subst. f_equal. apply IH. assumption.
  - cbn. lia.
  - intros H. inversion H as [| ? ? [y Hy]]; subst. congruence.
Qed.

(** C7, as the code has it — the exit status of the forecast-collection
    phase.  The run always persists the records it collected, with
    region_count their number; it reports success (status 0) exactly when every
    region of the catalog was collected, and status 1 otherwise, partial
    success included: with 3 of the 20 regions failing the document holds 17
    records and the status is 1. *)
Theorem C7_exit_status (env : Env) (w : World) :
  let r := collect_forecast.main env w in
  let fetch := fun reg => fetch_forecast (http env) reg (today env) in
  let forecasts := omap (collected fetch) NSW_REGIONS in
  forecasts_dir (store r.2) =
    <[(today env ++ ".json")%string :=
        {| c_date := today env; collected_at := utc_now env 0; c_type := "forecast";
           region_count := length forecasts; regions := forecasts |}]>
      (forecasts_dir (store w)) /\
  r.1 = (if decide (length forecasts = length NSW_REGIONS) then 0 else 1)%nat /\
  (r.1 = 0%nat <-> Forall (fun reg => is_Some (collected fetch reg)) NSW_REGIONS) /\
  let partial := collect_forecast.main (sample_env flaky_http) empty_world in
  region_count <$> forecasts_dir (store partial.2) !! "2024-01-02.json" = Some 17%nat /\
  partial.1 = 1%nat.
Proof.
  intros r fetch forecasts.
  assert (Hr : r = ((if decide (length forecasts = length NSW_REGIONS) then 0 else 1)%nat,
                    emit (PrintSaved (length forecasts)
                            (repo_root env ++ "/data/forecasts/" ++ today env ++ ".json")%string)
                      (write_forecast (today env ++ ".json")%string
                         {| c_date := today env; collected_at := utc_now env 0;
                            c_type := "forecast"; region_count := length forecasts;
                            regions := forecasts |}
                         {| store := store w;
                            trace := trace (emit (Print ("Current time: " ++ now_aest env)%string)
                                        (emit (Print ("Collecting forecasts for " ++ today env
                                                      ++ " (AEST)")%string) w))
                                     ++ flat_map (region_events fetch) NSW_REGIONS |}))).
  { unfold r, collect_forecast.main. rewrite collect_regions_fold. cbn [app].
    fold fetch. fold forecasts. f_equal.
    destruct (decide (length forecasts = length NSW_REGIONS)) as [E | NE].
    - rewrite E, Nat.eqb_refl. reflexivity.
    - apply Nat.eqb_neq in NE. rewrite NE. reflexivity. }
  split; [rewrite Hr; reflexivity |].
  split; [rewrite Hr; reflexivity |].
  split; [| cbv zeta; split; vm_compute; reflexivity].
  rewrite Hr. cbn [fst]. unfold forecasts. rewrite <- omap_length_full.
  destruct (decide _); [tauto | split; [discriminate | contradiction]].
Qed.

(** Three regions of twenty fail: 17 records are persisted and the run exits
    with status 1, not 0. *)
Lemma C7_partial_success_exits_1 :
  let r := collect_forecast.main (sample_env flaky_http) empty_world in
  length (omap (collected (fun reg => fetch_forecast flaky_http reg "2024-01-02"))
               NSW_REGIONS) = 17%nat /\
  region_count <$> forecasts_dir (store r.2) !! "2024-01-02.json" = Some 17%nat /\
  r.1 = 1%nat /\
  Nat.eqb r.1 0 = false.
Proof. cbv zeta. repeat split; vm_compute; reflexivity. Qed.

(** ** The comparison phase without a forecast *)

(** C9 — missing forecast.  When the forecast document of the target date
    is absent, the comparison phase prints the error, returns status 1 and
    does nothing else: no request for actual weather is made and the store is
    left as it was. *)
Theorem C9_missing_forecast (env : Env) (w : World) :
  forecasts_dir (store w) !! (yesterday env ++ ".json")%string = None ->
  let r := collect_actual_and_compare.main env w in
  r.1 = 1%nat /\
  store r.2 = store w /\
  trace r.2 =
    trace w ++
    [ Print ("Processing results for " ++ yesterday env)%string;
      Print ("Current time: " ++ now_aest env)%string;
      Print ("ERROR: No forecast file found for " ++ yesterday env ++ " at "
             ++ repo_root env ++ "/data/forecasts/" ++ yesterday env ++ ".json")%string;
      Print "Cannot compare without a forecast. Exiting." ] /\
  Forall (fun ev => forall reg, ev <> Request reg) (drop (length (trace w)) (trace r.2)).
Proof.
  intros Hnone r.
  assert (Hr : r = (1%nat,
    {| store := store w;
       trace := trace w ++
         [ Print ("Processing results for " ++ yesterday env)%string;
           Print ("Current time: " ++ now_aest env)%string;
           Print ("ERROR: No forecast file found for " ++ yesterday env ++ " at "
                  ++ repo_root env ++ "/data/forecasts/" ++ yesterday env ++ ".json")%string;
           Print "Cannot compare without a forecast. Exiting." ] |})).
  { unfold r, collect_actual_and_compare.main. cbn [emit store trace]. rewrite Hnone.
    unfold emit. cbn [store trace]. rewrite <- ?app_assoc. reflexivity. }
  rewrite Hr. cbn [fst snd store trace]. repeat split.
  rewrite drop_app_length. repeat constructor; discriminate.
Qed.

Lemma C9_missing_forecast_witness :
  let r := collect_actual_and_compare.main (sample_env flaky_http) empty_world in
  r.1 = 1%nat /\
  store r.2 = store empty_world /\
  trace r.2 =
    trace empty_world ++
    [ Print "Processing results for 2024-01-01";
      Print "Current time: 2024-01-02T06:00:00+10:00";
      Print "ERROR: No forecast file found for 2024-01-01 at /repo/data/forecasts/2024-01-01.json";
      Print "Cannot compare without a forecast. Exiting." ] /\
  Forall (fun ev => forall reg, ev <> Request reg)
         (drop (length (trace empty_world)) (trace r.2)).
Proof.
  apply (C9_missing_forecast (sample_env flaky_http) empty_world).
  vm_compute. reflexivity.
Defined.

(** ** Sorting *)

Section SortFacts.
Context {A : Type} (before : A -> A -> bool).
Hypothesis before_total : forall x y, before x y = true \/ before y x = true.

Lemma insert_sorted_perm (x : A) (l : list A) : insert_sorted before x l ≡ₚ x :: l.
Proof.
  induction l as [| y l IH]; [reflexivity |].
  cbn [insert_sorted]. destruct (before x y); [reflexivity |].
  rewrite IH. apply perm_swap.
Qed.

Lemma py_sort_perm (l : list A) : py_sort before l ≡ₚ l.
Proof.
  unfold py_sort. induction l as [| x l IH]; [reflexivity |].
  cbn [foldr]. rewrite insert_sorted_perm, IH. reflexivity.
Qed.

Lemma insert_sorted_HdRel (x y : A) (l : list A) :
  before y x = true ->
  HdRel (fun a b => before a b = true) y l ->
  HdRel (fun a b => before a b = true) y (insert_sorted before x l).
Proof.
  intros Hyx Hhd. destruct l as [| z l]; cbn [insert_sorted].
  - constructor. exact Hyx.
  - destruct (before x z); constructor; [exact Hyx |].
    inversion Hhd; assumption.
Qed.

Lemma insert_sorted_Sorted (x : A) (l : list A) :
  Sorted (fun a b => before a b = true) l ->
  Sorted (fun a b => before a b = true) (insert_sorted before x l).
Proof.
  induction 1 as [| y l Hs IH Hhd]; cbn [insert_sorted].
  - repeat constructor.
  - destruct (before x y) eqn:E.
    + repeat constructor; assumption.
    + constructor; [exact IH |].
      apply insert_sorted_HdRel; [| exact Hhd].
      destruct (before_total x y) as [H | H]; [congruence | exact H].
Qed.

Lemma py_sort_Sorted (l : list A) : Sorted (fun a b => before a b = true) (py_sort before l).
Proof.
  unfold py_sort. induction l as [| x l IH]; [constructor |].
  cbn [foldr]. apply insert_sorted_Sorted, IH.
Qed.
End SortFacts.

(** ** The summary builder *)

Lemma load_file_skip dir acc filename :
  result_name filename = false ->
  load_file dir (ret acc) filename = ret acc.
Proof.
  unfold load_file, result_name. cbn [bind ret]. intros H.
  destruct (endswith filename ".json"), (String.eqb filename "summary.json");
    cbn in *; congruence.
Qed.

Lemma load_file_day dir acc filename d :
  result_name filename = true -> dir !! filename = Some (DayResultFile d) ->
  load_file dir (ret acc) filename = ret (acc ++ [project d]).
Proof.
  unfold load_file, result_name. cbn [bind ret]. intros H Hd.
  destruct (endswith filename ".json"), (String.eqb filename "summary.json");
    cbn in *; try congruence.
  rewrite Hd. reflexivity.
Qed.

Lemma load_files_fold dir (names : list string) (acc : list SummaryEntry) :
  (forall name, name ∈ names -> result_name name = true ->
     exists d, dir !! name = Some (DayResultFile d)) ->
  foldl (load_file dir) (ret acc) names = ret (acc ++ omap (entry_of dir) names).
Proof.
  revert acc. induction names as [| name names IH]; intros acc Hok.
  - cbn. rewrite app_nil_r. reflexivity.
  - cbn [foldl omap list_omap]. unfold entry_of at 1.
    assert (Hrest : forall n, n ∈ names -> result_name n = true ->
                      exists d, dir !! n = Some (DayResultFile d)).
    { intros n Hn. apply Hok. right. exact Hn. }
    destruct (result_name name) eqn:E.
    + destruct (Hok name ltac:(left) E) as [d Hd].
      rewrite (load_file_day dir acc name d E Hd), Hd, (IH _ Hrest).
      rewrite <- app_assoc. reflexivity.
    + rewrite (load_file_skip dir acc name E). apply (IH _ Hrest).
Qed.

Lemma entries_of_names dir (l : list (string * ResultsFile)) :
  (forall nf, nf ∈ l -> dir !! nf.1 = Some nf.2) ->
  omap (entry_of dir) l.*1 =
  map project
      (omap (fun nf : string * ResultsFile =>
               match nf.2 with
               | DayResultFile d => if result_name nf.1 then Some d else None
               | _ => None
               end) l).
Proof.
  induction l as [| [name f] l IH]; intros Hl; [reflexivity |].
  cbn [fmap list_fmap omap list_omap fst snd]. unfold entry_of at 1.
  pose proof (Hl (name, f) ltac:(left)) as Hf. cbn [fst snd] in Hf. rewrite Hf.
  rewrite IH by (intros nf Hnf; apply Hl; right; exact Hnf).
  destruct (result_name name), f; reflexivity.
Qed.

Lemma entries_of_listdir dir :
  omap (entry_of dir) (listdir dir) = map project (result_documents dir).
Proof.
  apply entries_of_names. intros [name f] H. apply elem_of_map_to_list in H. exact H.
Qed.

Lemma date_desc_total (x y : SummaryEntry) :
  String.leb (se_date y) (se_date x) = true \/ String.leb (se_date x) (se_date y) = true.
Proof. apply String.leb_total. Qed.

Lemma listdir_loadable dir name :
  loadable dir -> name ∈ listdir dir -> result_name name = true ->
  exists d, dir !! name = Some (DayResultFile d).
Proof.
  intros Hok Hin Hname. unfold listdir in Hin.
  apply list_elem_of_fmap in Hin as ([n f] & -> & Hnf).
  apply elem_of_map_to_list in Hnf. cbn [fst].
  pose proof (Hok n f Hnf Hname) as Hday.
  destruct f; try discriminate. eauto.
Qed.

(** C8 — the summary feed.  When every JSON file of the results directory
    other than the feed's own is a day result, [rebuild_summary] succeeds and
    overwrites the feed with one entry per such document, sorted by date
    descending, [total_days] being the number of entries.  Documents for
    2024-01-01, 2024-01-03 and 2024-01-02 give the order 2024-01-03,
    2024-01-02, 2024-01-01 and total_days 3. *)
Theorem C8_rebuild_summary (stamp : string) (w : World) :
  loadable (results_dir (store w)) ->
  exists feed,
    rebuild_summary stamp w =
      ret (emit (PrintRebuilt (total_days feed))
                (write_result "summary.json" (SummaryFile feed) w)) /\
    last_updated feed = stamp /\
    results feed ≡ₚ map project (result_documents (results_dir (store w))) /\
    Sorted date_desc (results feed) /\
    total_days feed = length (results feed) /\
    total_days feed = length (result_documents (results_dir (store w))) /\
    (fun feed => (map se_date (results feed), total_days feed))
      <$> feed_of (rebuild_summary "now" sample_results_world)
    = Some (["2024-01-03"; "2024-01-02"; "2024-01-01"], 3%nat).
Proof.
  intros Hok. set (dir := results_dir (store w)) in *.
  set (entries := omap (entry_of dir) (sorted_names (listdir dir))).
  assert (Hperm : sort_by_date_desc entries ≡ₚ map project (result_documents dir)).
  { unfold sort_by_date_desc. rewrite py_sort_perm. unfold entries, sorted_names.
    rewrite py_sort_perm. rewrite entries_of_listdir. reflexivity. }
  exists {| last_updated := stamp; total_days := length (sort_by_date_desc entries);
            results := sort_by_date_desc entries |}.
  cbn [last_updated total_days results].
  split; [| split; [reflexivity | split; [exact Hperm | split; [| split; [reflexivity | split]]]]].
  - unfold rebuild_summary. fold dir.
    rewrite (load_files_fold dir _ []).
    + cbn [bind app]. fold entries. reflexivity.
    + intros name Hin Hname. apply (listdir_loadable dir name Hok); [| exact Hname].
      unfold sorted_names in Hin. rewrite py_sort_perm in Hin. exact Hin.
  - unfold sort_by_date_desc, date_desc.
    apply (py_sort_Sorted (fun x y => String.leb (se_date y) (se_date x))).
    intros x y. apply date_desc_total.
  - rewrite Hperm, length_map. reflexivity.
  - vm_compute. reflexivity.
Qed.

Lemma sample_results_loadable : loadable sample_results.
Proof.
  unfold loadable. apply map_Forall_to_list.
  assert (E : map_to_list sample_results =
              [ ("summary.json", SummaryFile {| last_updated := "old"; total_days := 0;
                                                results := [] |});
                ("2024-01-03.json", DayResultFile (day_result "2024-01-03"));
                ("2024-01-01.json", DayResultFile (day_result "2024-01-01"));
                ("2024-01-02.json", DayResultFile (day_result "2024-01-02"));
                ("README.md", ForeignFile NotJson) ]).
  { vm_compute. reflexivity. }
  rewrite E. repeat constructor; cbn; vm_compute; congruence.
Qed.

(** The feed rebuilt over three day results, an earlier feed and a file that
    is not JSON. *)
Lemma C8_rebuild_summary_witness :
  exists feed,
    rebuild_summary "now" sample_results_world =
      ret (emit (PrintRebuilt (total_days feed))
                (write_result "summary.json" (SummaryFile feed) sample_results_world)) /\
    last_updated feed = "now" /\
    results feed ≡ₚ map project (result_documents sample_results) /\
    Sorted date_desc (results feed) /\
    total_days feed = length (results feed) /\
    total_days feed = length (result_documents sample_results) /\
    (fun feed => (map se_date (results feed), total_days feed))
      <$> feed_of (rebuild_summary "now" sample_results_world)
    = Some (["2024-01-03"; "2024-01-02"; "2024-01-01"], 3%nat).
Proof.
  apply (C8_rebuild_summary "now" sample_results_world).
  exact sample_results_loadable.
Defined.

(** ** A complete day *)

(** The forecast run of one day followed by the comparison run of the next:
    both exit with status 0, the comparison makes its twenty requests and
    leaves the day result and the feed in the store. *)
Example full_day_example :
  let w1 := collect_forecast.main (day_before_env good_http) empty_world in
  let w2 := collect_actual_and_compare.main (sample_env good_http) w1.2 in
  w1.1 = 0%nat /\ w2.1 = 0%nat /\
  length (List.filter (fun ev => match ev with Request _ => true | _ => false end)
                      (drop (length (trace w1.2)) (trace w2.2))) = 20%nat /\
  region_count <$> actuals_dir (store w2.2) !! "2024-01-01.json" = Some 20%nat /\
  (fun feed => (map se_date (results feed), map se_overall_score (results feed)))
    <$> feed_of (inr w2.2) = Some (["2024-01-01"], [100%Q]).
Proof. cbv zeta. repeat split; vm_compute; reflexivity. Qed.

(** * Further properties of the code *)

(** ** The accuracy engine: shape and irrelevant records *)

(** The result is a function of the comparison list and of the five diff
    lists. *)
Lemma compute_accuracy_ext T fcs1 acts1 fcs2 acts2 :
  omap (fun fc => region_comparison fc <$> matching_actual acts1 (region fc)) fcs1 =
    omap (fun fc => region_comparison fc <$> matching_actual acts2 (region fc)) fcs2 ->
  (forall metric, metric ∈ METRICS ->
     metric_diffs acts1 metric fcs1 = metric_diffs acts2 metric fcs2) ->
  compute_accuracy_with T fcs1 acts1 = compute_accuracy_with T fcs2 acts2.
Proof.
  intros Hc Hd.
  rewrite <- !compare_regions_comparisons in Hc.
  assert (Hd' : forall metric, metric ∈ METRICS ->
            diffs_at (compare_regions (index_by_name acts1) fcs1).2 metric =
            diffs_at (compare_regions (index_by_name acts2) fcs2).2 metric).
  { intros metric Hin. rewrite !compare_regions_diffs by exact Hin. apply Hd, Hin. }
  clear Hd. unfold compute_accuracy_with.
  destruct (compare_regions (index_by_name acts1) fcs1) as [cs1 d1].
  destruct (compare_regions (index_by_name acts2) fcs2) as [cs2 d2].
  cbn [fst snd] in Hc, Hd'. subst cs2. rewrite !summarise_fold.
  assert (E : map (fun m => (m, summary_entry T m (diffs_at d1 m))) METRICS
            = map (fun m => (m, summary_entry T m (diffs_at d2 m))) METRICS).
  { apply map_ext_in. intros m Hin. apply list_elem_of_In in Hin.
    rewrite (Hd' m Hin). reflexivity. }
  rewrite E. reflexivity.
Qed.

Lemma matching_actual_None acts name :
  name ∉ map region acts -> matching_actual acts name = None.
Proof.
  intros Hnot. destruct (matching_actual acts name) eqn:E; [| reflexivity].
  exfalso. apply Hnot, matching_actual_is_Some. eauto.
Qed.

Lemma sample_unmatched acts metric fc :
  matching_actual acts (region fc) = None -> sample acts metric fc = [].
Proof. unfold sample. intros ->. reflexivity. Qed.

Lemma matching_actual_without acts1 a acts2 name :
  region a <> name ->
  matching_actual (acts1 ++ a :: acts2) name = matching_actual (acts1 ++ acts2) name.
Proof.
  intros Hne. unfold matching_actual.
  rewrite !filter_app, filter_cons, decide_False by exact Hne. reflexivity.
Qed.

Lemma yields_sample_matched acts metric fc :
  yields_sample acts metric fc = true -> is_Some (matching_actual acts (region fc)).
Proof.
  unfold yields_sample. destruct (matching_actual acts (region fc)); [eauto | discriminate].
Qed.

Lemma samples_le_matches acts metric fcs :
  (length (List.filter (yields_sample acts metric) fcs) <=
   length (omap (fun fc => region_comparison fc <$> matching_actual acts (region fc)) fcs))%nat.
Proof.
  induction fcs as [| fc fcs IH]; [reflexivity |].
  cbn [List.filter omap list_omap].
  pose proof (yields_sample_matched acts metric fc) as Hm.
  destruct (yields_sample acts metric fc).
  - destruct (Hm eq_refl) as [act ->]. cbn. lia.
  - destruct (matching_actual acts (region fc)); cbn; lia.
Qed.

(** X1 — the shape of the result.  Whatever the inputs, the summary holds
    exactly the five metric keys in their fixed order, every region comparison
    holds the same five keys, and there are at most as many comparisons as
    forecast records. *)
Theorem X1_result_shape (fcs acts : list ObservationRecord) :
  let r := compute_accuracy fcs acts in
  map fst (summary r) = METRICS /\
  Forall (fun rc => map fst (rc_metrics rc) = METRICS) (comparisons r) /\
  (length (comparisons r) <= length fcs)%nat.
Proof.
  intros r. unfold r, compute_accuracy. split; [| split].
  - rewrite compute_summary. reflexivity.
  - rewrite compute_comparisons. induction fcs as [| fc fcs IH]; [constructor |].
    cbn [omap list_omap]. destruct (matching_actual acts (region fc)); cbn.
    + constructor; [reflexivity | exact IH].
    + exact IH.
  - rewrite compute_comparisons. apply omap_length_le.
Qed.

(** X2 — empty input.  Without forecast records, or without actual records,
    the result has no comparison, a null summary for each of the five metrics
    and both scores 0. *)
Theorem X2_empty_input :
  (forall acts, compute_accuracy [] acts = no_data) /\
  (forall fcs, compute_accuracy fcs [] = no_data).
Proof.
  split.
  - intros acts. reflexivity.
  - intros fcs. unfold compute_accuracy.
    rewrite (compute_accuracy_ext THRESHOLDS fcs [] [] []); [reflexivity | |].
    + induction fcs as [| fc fcs IH]; [reflexivity | exact IH].
    + intros metric _. unfold metric_diffs.
      induction fcs as [| fc fcs IH]; [reflexivity | exact IH].
Qed.

(** X3 — an unmatched forecast record is dropped without trace.  A forecast
    record whose region name is the name of no actual record changes nothing:
    the whole result is the one computed without it. *)
Theorem X3_unmatched_forecast_ignored (fcs1 fcs2 : list ObservationRecord)
    (fc : ObservationRecord) (acts : list ObservationRecord) :
  region fc ∉ map region acts ->
  compute_accuracy (fcs1 ++ fc :: fcs2) acts = compute_accuracy (fcs1 ++ fcs2) acts.
Proof.
  intros Hnot. apply matching_actual_None in Hnot.
  apply compute_accuracy_ext.
  - rewrite !omap_app. cbn [omap list_omap]. rewrite Hnot. reflexivity.
  - intros metric _. rewrite !metric_diffs_app. unfold metric_diffs at 2.
    cbn [flat_map]. rewrite (sample_unmatched _ _ _ Hnot). reflexivity.
Qed.

Lemma X3_unmatched_forecast_ignored_witness :
  compute_accuracy ([only_high_temp "B" 21] ++ only_high_temp "A" 20 :: [])
                   [only_high_temp "B" 22; only_high_temp "C" 23]
  = compute_accuracy ([only_high_temp "B" 21] ++ [])
                     [only_high_temp "B" 22; only_high_temp "C" 23].
Proof.
  apply (X3_unmatched_forecast_ignored [only_high_temp "B" 21] [] (only_high_temp "A" 20)).
  apply (bool_decide_unpack _). vm_compute. reflexivity.
Defined.

(** X4 — an actual record without forecast is ignored.  An actual record
    whose region name is the name of no forecast record changes nothing: the
    whole result is the one computed without it. *)
Theorem X4_unmatched_actual_ignored (fcs acts1 acts2 : list ObservationRecord)
    (a : ObservationRecord) :
  region a ∉ map region fcs ->
  compute_accuracy fcs (acts1 ++ a :: acts2) = compute_accuracy fcs (acts1 ++ acts2).
Proof.
  intros Hnot.
  assert (Hm : forall fc, fc ∈ fcs ->
            matching_actual (acts1 ++ a :: acts2) (region fc) =
            matching_actual (acts1 ++ acts2) (region fc)).
  { intros fc Hin. apply matching_actual_without. intros E. apply Hnot.
    rewrite E. apply (list_elem_of_fmap_2 region), Hin. }
  clear Hnot. apply compute_accuracy_ext.
  - induction fcs as [| fc fcs IH]; [reflexivity |].
    cbn [omap list_omap]. rewrite (Hm fc) by left.
    rewrite IH by (intros fc' Hin; apply Hm; right; exact Hin). reflexivity.
  - intros metric _. unfold metric_diffs.
    induction fcs as [| fc fcs IH]; [reflexivity |].
    cbn [flat_map]. unfold sample at 1 3. rewrite (Hm fc) by left.
    rewrite IH by (intros fc' Hin; apply Hm; right; exact Hin). reflexivity.
Qed.

Lemma X4_unmatched_actual_ignored_witness :
  compute_accuracy [only_high_temp "A" 20; only_high_temp "B" 21]
                   ([only_high_temp "B" 22] ++ only_high_temp "C" 23 :: [])
  = compute_accuracy [only_high_temp "A" 20; only_high_temp "B" 21]
                     ([only_high_temp "B" 22] ++ []).
Proof.
  apply (X4_unmatched_actual_ignored [only_high_temp "A" 20; only_high_temp "B" 21]
           [only_high_temp "B" 22] [] (only_high_temp "C" 23)).
  apply (bool_decide_unpack _). vm_compute. reflexivity.
Defined.

(** X5 — samples and comparisons.  The sample_size of a non-null summary is
    at least 1 and never exceeds the number of region comparisons. *)
Theorem X5_sample_size_bound (fcs acts : list ObservationRecord) (metric : string)
    (s : MetricSummary) :
  dict_get metric (summary (compute_accuracy fcs acts)) = Some (Some s) ->
  (1 <= sample_size s <= length (comparisons (compute_accuracy fcs acts)))%nat.
Proof.
  unfold compute_accuracy. intros Hs.
  apply summary_lookup_Some in Hs as (v & vals & Hd & Hin & ->).
  rewrite compute_comparisons. cbn [metric_summary sample_size].
  split; [cbn; lia |].
  rewrite <- Hd, compare_regions_diffs, metric_diffs_length by exact Hin.
  apply samples_le_matches.
Qed.

Lemma X5_sample_size_bound_witness :
  let r := compute_accuracy [only_high_temp "Sydney" 20]
                            [only_high_temp "Sydney" (213 # 10)] in
  (1 <= 1 <= length (comparisons r))%nat.
Proof.
  apply (X5_sample_size_bound [only_high_temp "Sydney" 20]
           [only_high_temp "Sydney" (213 # 10)] "high_temp"
           {| exact_pct := 0; near_pct := 100; near_threshold := 2;
              wide_pct := 100; wide_threshold := 4; mean_diff := 13 # 10;
              std_dev := 0; ms_unit := "°C"; sample_size := 1 |}).
  vm_compute. reflexivity.
Defined.

(** ** The accuracy engine: numbers *)

Section MoreNumbers.
Local Open Scope Q_scope.

Lemma round_half_even_comp (q1 q2 : Q) :
  q1 == q2 -> Py.round_half_even q1 = Py.round_half_even q2.
Proof.
  intros Heq. apply Z.le_antisymm; apply round_half_even_mono; rewrite Heq; apply Qle_refl.
Qed.

Lemma round_half_even_Z (k : Z) : Py.round_half_even (inject_Z k) = k.
Proof.
  unfold Py.round_half_even. rewrite Qfloor_Z.
  destruct (Qcompare_spec (inject_Z k - inject_Z k) (1 # 2)) as [E | L | G];
    [exfalso; lra | reflexivity | exfalso; lra].
Qed.

(** Rounding again to the same number of decimals changes nothing. *)
Lemma round_idem (q : Q) (nd : nat) : Py.round (Py.round q nd) nd = Py.round q nd.
Proof.
  unfold Py.round at 1 3. apply Qred_complete.
  pose proof (pow10_pos nd) as Hp.
  rewrite (round_half_even_comp (Py.round q nd * inject_Z (Py.pow10 nd))
             (inject_Z (Py.round_half_even (q * inject_Z (Py.pow10 nd))))).
  - rewrite round_half_even_Z. reflexivity.
  - rewrite round_value. field. intros E. rewrite E in Hp. discriminate.
Qed.

(** [round(x, 2)] is within 0.005 of [x]. *)
Lemma round2_near (q : Q) : Qabs (Py.round q 2 - q) <= 1 # 200.
Proof.
  rewrite round_value. change (Py.pow10 2) with 100%Z.
  pose proof (round_half_even_near (q * inject_Z 100)) as [L U].
  set (k := inject_Z (Py.round_half_even (q * inject_Z 100))) in *.
  change (inject_Z 100) with (100 # 1) in *. clearbody k.
  assert (E : k / (100 # 1) - q == (k - q * (100 # 1)) * (1 # 100)) by field.
  rewrite E. apply Qabs_Qle_condition. split; lra.
Qed.

Lemma round_nonneg (q : Q) (nd : nat) : 0 <= q -> 0 <= Py.round q nd.
Proof.
  intros Hq. assert (E : Py.round 0 nd = 0).
  { unfold Py.round. transitivity (Qred 0); [apply Qred_complete | reflexivity].
    rewrite (round_half_even_comp (0 * inject_Z (Py.pow10 nd)) (inject_Z 0)) by ring.
    rewrite round_half_even_Z. unfold Qdiv. apply Qmult_0_l. }
  rewrite <- E at 1. apply round_mono, Hq.
Qed.

Lemma round_sqrt_nonneg (q : Q) (nd : nat) : 0 <= Py.round_sqrt q nd.
Proof.
  unfold Py.round_sqrt. rewrite Qred_correct.
  pose proof (pow10_pos nd) as Hp.
  apply Qle_shift_div_l; [exact Hp |]. rewrite Qmult_0_l.
  change 0 with (inject_Z 0). rewrite <- Zle_Qle.
  unfold Py.round_sqrt_half_even.
  pose proof (Z.sqrt_nonneg (Qfloor (q * inject_Z (Py.pow10 nd) * inject_Z (Py.pow10 nd)))).
  destruct (Qcompare _ _); [destruct (Z.even _) |..]; lia.
Qed.

Lemma sum_from (xs : list Q) (a : Q) : fold_left Qplus xs a == a + Py.sum xs.
Proof.
  unfold Py.sum. revert a. induction xs as [| x xs IH]; intros a; cbn [fold_left].
  - ring.
  - rewrite IH, (IH (0 + x)). ring.
Qed.

Lemma sum_cons (x : Q) (xs : list Q) : Py.sum (x :: xs) == x + Py.sum xs.
Proof. unfold Py.sum at 1. cbn [fold_left]. rewrite sum_from. ring. Qed.

Lemma len_cons {A} (x : A) (xs : list A) : Py.len (x :: xs) == 1 + Py.len xs.
Proof.
  unfold Py.len. cbn [length]. rewrite Nat2Z.inj_succ, <- Z.add_1_l, inject_Z_plus.
  reflexivity.
Qed.

Lemma len_nonneg {A} (xs : list A) : 0 <= Py.len xs.
Proof. unfold Py.len. change 0 with (inject_Z 0). rewrite <- Zle_Qle. lia. Qed.

(** The sum of numbers between [lo] and [hi] lies between [lo * n] and
    [hi * n]. *)
Lemma sum_bounds (lo hi : Q) (xs : list Q) :
  List.Forall (fun x => lo <= x <= hi) xs ->
  lo * Py.len xs <= Py.sum xs <= hi * Py.len xs.
Proof.
  induction 1 as [| x xs [Hlo Hhi] _ [IHlo IHhi]].
  - change (Py.len (@nil Q)) with 0. change (Py.sum []) with 0. split; lra.
  - rewrite sum_cons, len_cons. split; nra.
Qed.

Lemma mean_bounds (lo hi : Q) (x : Q) (xs : list Q) :
  List.Forall (fun y => lo <= y <= hi) (x :: xs) ->
  lo <= Py.sum (x :: xs) / Py.len (x :: xs) <= hi.
Proof.
  intros Hall. destruct (sum_bounds lo hi _ Hall) as [Hlo Hhi].
  pose proof (len_pos x xs) as Hn. split.
  - apply Qle_shift_div_l; assumption.
  - apply Qle_shift_div_r; assumption.
Qed.

Lemma count_le_len (p : Q -> bool) (vals : list Q) : Py.count p vals <= Py.len vals.
Proof.
  unfold Py.count, Py.len. rewrite <- Zle_Qle. apply Nat2Z.inj_le.
  induction vals as [| v vals IH]; cbn; [lia |]. destruct (p v); cbn; lia.
Qed.

Lemma count_nonneg (p : Q -> bool) (vals : list Q) : 0 <= Py.count p vals.
Proof. apply len_nonneg. Qed.

(** A rounded percentage of a count lies between 0 and 100. *)
Lemma pct_bounds (p : Q -> bool) (v : Q) (vals : list Q) :
  0 <= Py.round (Py.count p (v :: vals) / Py.len (v :: vals) * 100) 1 <= 100.
Proof.
  pose proof (len_pos v vals) as Hn.
  pose proof (count_le_len p (v :: vals)) as Hle.
  pose proof (count_nonneg p (v :: vals)) as H0.
  set (c := Py.count p (v :: vals)) in *. set (n := Py.len (v :: vals)) in *.
  assert (Hq : 0 <= c / n <= 1).
  { split; [apply Qle_shift_div_l | apply Qle_shift_div_r]; lra. }
  split.
  - apply round_nonneg. lra.
  - change 100 with (Py.round 100 1) at 2. apply round_mono. lra.
Qed.

End MoreNumbers.

Lemma metric_diffs_rounded acts metric fcs :
  Forall (fun d => exists x, d = Py.round (Qabs x) 2) (metric_diffs acts metric fcs).
Proof.
  unfold metric_diffs. induction fcs as [| fc fcs IH]; [constructor |].
  cbn [flat_map]. apply Forall_app. split; [| exact IH].
  unfold sample, metric_comparison. cbn [mc_diff].
  destruct (matching_actual acts (region fc)) as [act |]; [| constructor].
  destruct (get fc metric) as [f |], (get act metric) as [a |]; repeat constructor.
  eexists. reflexivity.
Qed.

Lemma metric_diffs_nonneg acts metric fcs :
  Forall (fun d => (0 <= d)%Q) (metric_diffs acts metric fcs).
Proof.
  eapply Forall_impl; [apply metric_diffs_rounded |].
  intros d [x ->]. apply round_nonneg, Qabs_nonneg.
Qed.

(** Every non-null summary is the summary of a metric key. *)
Lemma valid_summaries_lookup T fcs acts s :
  s ∈ valid_summaries (compute_accuracy_with T fcs acts) ->
  exists metric, dict_get metric (summary (compute_accuracy_with T fcs acts)) = Some (Some s).
Proof.
  unfold valid_summaries. rewrite list_elem_of_omap. intros ([m o] & Hin & Ho).
  cbn [snd] in Ho. subst o. exists m.
  rewrite compute_summary in Hin |- *.
  apply list_elem_of_fmap in Hin as (m' & [= -> Hs] & Hm').
  rewrite (dict_get_metrics
             (fun m => summary_entry T m
                         (diffs_at (compare_regions (index_by_name acts) fcs).2 m))).
  rewrite decide_True by exact Hm'. rewrite Hs. reflexivity.
Qed.

(** X6 — percentages stay in range.  In every non-null summary exact_pct,
    near_pct and wide_pct lie between 0 and 100, whatever the thresholds, and
    so does the overall score. *)
Theorem X6_percentages_in_range (T : list (string * Thresholds))
    (fcs acts : list ObservationRecord) :
  let r := compute_accuracy_with T fcs acts in
  (forall metric s, dict_get metric (summary r) = Some (Some s) ->
     (0 <= exact_pct s <= 100)%Q /\ (0 <= near_pct s <= 100)%Q /\
     (0 <= wide_pct s <= 100)%Q) /\
  (0 <= overall_score r <= 100)%Q.
Proof.
  intros r.
  assert (Hall : forall metric s, dict_get metric (summary r) = Some (Some s) ->
     (0 <= exact_pct s <= 100)%Q /\ (0 <= near_pct s <= 100)%Q /\
     (0 <= wide_pct s <= 100)%Q).
  { intros metric s Hs. apply summary_lookup_Some in Hs as (v & vals & _ & _ & ->).
    cbn [metric_summary exact_pct near_pct wide_pct]. repeat split; apply pct_bounds. }
  split; [exact Hall |].
  destruct (compute_scores T fcs acts) as [Ho _]. fold r in Ho. rewrite Ho.
  assert (Hv : Forall (fun y => (0 <= y <= 100)%Q) (map wide_pct (valid_summaries r))).
  { apply Forall_fmap, Forall_forall. intros s Hin.
    apply valid_summaries_lookup in Hin as [metric Hs]. apply (Hall metric s Hs). }
  destruct (valid_summaries r) as [| s0 ss]; [split; discriminate |].
  unfold mean. cbn [map] in *. split.
  - apply round_nonneg. apply (mean_bounds 0 100 _ _ Hv).
  - change 100%Q with (Py.round 100 1) at 1. apply round_mono.
    apply (mean_bounds 0 100 _ _ Hv).
Qed.

Lemma squares_nonneg (c : Q) (vals : list Q) :
  (0 <= Py.sum (map (fun v => (v - c) ^ 2) vals))%Q.
Proof.
  induction vals as [| v vals IH]; [discriminate |].
  cbn [map]. rewrite sum_cons.
  pose proof (Qsqr_nonneg (v - c)). lra.
Qed.

(** X7 — errors are not negative.  In every non-null summary mean_diff and
    std_dev are at least 0, and so is avg_std_dev. *)
Theorem X7_errors_nonnegative (T : list (string * Thresholds))
    (fcs acts : list ObservationRecord) :
  let r := compute_accuracy_with T fcs acts in
  (forall metric s, dict_get metric (summary r) = Some (Some s) ->
     (0 <= mean_diff s)%Q /\ (0 <= std_dev s)%Q) /\
  (0 <= avg_std_dev r)%Q.
Proof.
  intros r.
  assert (Hall : forall metric s, dict_get metric (summary r) = Some (Some s) ->
     (0 <= mean_diff s)%Q /\ (0 <= std_dev s)%Q).
  { intros metric s Hs. apply summary_lookup_Some in Hs as (v & vals & Hd & Hin & ->).
    rewrite compare_regions_diffs in Hd by exact Hin.
    pose proof (metric_diffs_nonneg acts metric fcs) as Hnn. rewrite Hd in Hnn.
    cbn [metric_summary mean_diff std_dev]. split.
    - apply round_nonneg.
      assert (Hb : Forall (fun y => (0 <= y <= y)%Q) (v :: vals)).
      { eapply Forall_impl; [exact Hnn |]. intros y Hy. split; [exact Hy | apply Qle_refl]. }
      pose proof (len_pos v vals) as Hn.
      apply Qle_shift_div_l; [exact Hn |]. rewrite Qmult_0_l.
      clear - Hnn. induction Hnn as [| y ys Hy _ IH]; [discriminate |].
      rewrite sum_cons. lra.
    - destruct (1 <? length (v :: vals))%nat; [apply round_sqrt_nonneg | discriminate]. }
  split; [exact Hall |].
  destruct (compute_scores T fcs acts) as [_ Ha]. fold r in Ha. rewrite Ha.
  apply round_nonneg.
  assert (Hv : Forall (fun y => (0 <= y)%Q) (map std_dev (valid_summaries r))).
  { apply Forall_fmap, Forall_forall. intros s Hin.
    apply valid_summaries_lookup in Hin as [metric Hs]. apply (Hall metric s Hs). }
  destruct (valid_summaries r) as [| s0 ss]; [discriminate |].
  unfold mean. cbn [map] in *. pose proof (len_pos (std_dev s0) (map std_dev ss)) as Hn.
  apply Qle_shift_div_l; [exact Hn |]. rewrite Qmult_0_l.
  clear - Hv. induction Hv as [| y ys Hy _ IH]; [discriminate |].
  rewrite sum_cons. lra.
Qed.

Lemma comparison_origin T fcs acts rc :
  rc ∈ comparisons (compute_accuracy_with T fcs acts) ->
  exists fc act, fc ∈ fcs /\ matching_actual acts (region fc) = Some act /\
                 rc = region_comparison fc act.
Proof.
  rewrite compute_comparisons, list_elem_of_omap. intros (fc & Hin & Hrc).
  destruct (matching_actual acts (region fc)) as [act |] eqn:E; [| discriminate].
  injection Hrc as <-. eauto.
Qed.

Lemma region_comparison_lookup fc act metric mc :
  dict_get metric (rc_metrics (region_comparison fc act)) = Some mc ->
  metric ∈ METRICS /\ mc = metric_comparison fc act metric.
Proof.
  cbn [region_comparison rc_metrics].
  rewrite (dict_get_metrics (metric_comparison fc act)).
  destruct (decide (metric ∈ METRICS)); [| discriminate]. intros [= <-]. auto.
Qed.

(** X8 — what a diff is.  In every region comparison a metric's diff is null
    exactly when its forecast or its actual value is null; otherwise it is not
    negative, lies within 0.005 of the absolute difference of the two values,
    and is the same when the two values change places. *)
Theorem X8_diff_faithful (fcs acts : list ObservationRecord) (rc : RegionComparison)
    (metric : string) (mc : MetricComparison) :
  rc ∈ comparisons (compute_accuracy fcs acts) ->
  dict_get metric (rc_metrics rc) = Some mc ->
  match mc_forecast mc, mc_actual mc with
  | Some f, Some a =>
      exists d, mc_diff mc = Some d /\ (0 <= d)%Q /\
                (Qabs (d - Qabs (f - a)) <= 1 # 200)%Q /\
                d = Py.round (Qabs (a - f)) 2
  | _, _ => mc_diff mc = None
  end.
Proof.
  intros Hrc Hmc. apply comparison_origin in Hrc as (fc & act & _ & _ & ->).
  apply region_comparison_lookup in Hmc as [_ ->].
  unfold metric_comparison. cbn [mc_forecast mc_actual mc_diff].
  destruct (get fc metric) as [f |], (get act metric) as [a |]; try reflexivity.
  eexists. split; [reflexivity |]. split; [| split].
  - apply round_nonneg, Qabs_nonneg.
  - apply round2_near.
  - rewrite (Qabs_Qminus a f). reflexivity.
Qed.

Lemma X8_diff_faithful_witness :
  exists d, Some (13 # 10)%Q = Some d /\ (0 <= d)%Q /\
            (Qabs (d - Qabs (20 - (213 # 10))) <= 1 # 200)%Q /\
            d = Py.round (Qabs ((213 # 10) - 20)) 2.
Proof.
  apply (X8_diff_faithful [only_high_temp "Sydney" 20] [only_high_temp "Sydney" (213 # 10)]
           (region_comparison (only_high_temp "Sydney" 20)
                              (only_high_temp "Sydney" (213 # 10)))
           "high_temp"
           {| mc_forecast := Some 20%Q; mc_actual := Some (213 # 10)%Q;
              mc_diff := Some (13 # 10)%Q |}).
  - replace (comparisons (compute_accuracy [only_high_temp "Sydney" 20]
                                           [only_high_temp "Sydney" (213 # 10)]))
      with [region_comparison (only_high_temp "Sydney" 20)
                              (only_high_temp "Sydney" (213 # 10))]
      by (vm_compute; reflexivity).
    left.
  - vm_compute. reflexivity.
Defined.

Lemma mean_single (y : Q) : (Py.sum [y] / Py.len [y] == y)%Q.
Proof.
  unfold Py.sum. cbn [fold_left]. change (Py.len [y]) with 1%Q. field.
Qed.

(** X9 — a single sample.  A summary computed from one sample has std_dev 0
    and mean_diff equal to that sample's diff. *)
Theorem X9_single_sample (T : list (string * Thresholds))
    (fcs acts : list ObservationRecord) (metric : string) (s : MetricSummary) :
  dict_get metric (summary (compute_accuracy_with T fcs acts)) = Some (Some s) ->
  sample_size s = 1%nat ->
  std_dev s = 0%Q /\
  exists d, diffs_at (compare_regions (index_by_name acts) fcs).2 metric = [d] /\
            mean_diff s = d.
Proof.
  intros Hs Hone. apply summary_lookup_Some in Hs as (v & vals & Hd & Hin & ->).
  cbn [metric_summary sample_size] in Hone. destruct vals as [| v' vals]; [| discriminate].
  split; [reflexivity |]. exists v. split; [exact Hd |].
  cbn [metric_summary mean_diff].
  pose proof (metric_diffs_rounded acts metric fcs) as Hr.
  rewrite <- compare_regions_diffs, Hd in Hr by exact Hin.
  apply Forall_inv in Hr as [x ->].
  transitivity (Py.round (Py.round (Qabs x) 2) 2);
    [apply round_comp, mean_single | apply round_idem].
Qed.

Lemma X9_single_sample_witness :
  (0 : Q) = 0%Q /\
  exists d, diffs_at (compare_regions (index_by_name [only_high_temp "Sydney" (213 # 10)])
                                      [only_high_temp "Sydney" 20]).2 "high_temp" = [d] /\
            (13 # 10)%Q = d.
Proof.
  apply (X9_single_sample THRESHOLDS [only_high_temp "Sydney" 20]
           [only_high_temp "Sydney" (213 # 10)] "high_temp"
           {| exact_pct := 0; near_pct := 100; near_threshold := 2;
              wide_pct := 100; wide_threshold := 4; mean_diff := 13 # 10;
              std_dev := 0; ms_unit := "°C"; sample_size := 1 |}).
  - vm_compute. reflexivity.
  - reflexivity.
Defined.

(** ** The accuracy engine: a forecast that came true *)

Section Perfect.
Local Open Scope Q_scope.

Lemma round_sqrt_half_even_comp (r1 r2 : Q) :
  r1 == r2 -> Py.round_sqrt_half_even r1 = Py.round_sqrt_half_even r2.
Proof.
  intros H. unfold Py.round_sqrt_half_even.
  rewrite (Qfloor_comp _ _ H).
  set (h := (inject_Z (Z.sqrt (Qfloor r2)) + (1 # 2)) * (inject_Z (Z.sqrt (Qfloor r2)) + (1 # 2))).
  rewrite (Qcompare_comp r1 r2 H h h (Qeq_refl h)). reflexivity.
Qed.

Lemma round_sqrt_comp (q1 q2 : Q) (nd : nat) :
  q1 == q2 -> Py.round_sqrt q1 nd = Py.round_sqrt q2 nd.
Proof.
  intros H. unfold Py.round_sqrt.
  rewrite (round_sqrt_half_even_comp
             (q1 * inject_Z (Py.pow10 nd) * inject_Z (Py.pow10 nd))
             (q2 * inject_Z (Py.pow10 nd) * inject_Z (Py.pow10 nd)));
    [reflexivity | rewrite H; reflexivity].
Qed.

Lemma filter_all (p : Q -> bool) (vals : list Q) :
  Forall (fun v => p v = true) vals -> List.filter p vals = vals.
Proof.
  induction 1 as [| v vals Hv _ IH]; [reflexivity |].
  cbn [List.filter]. rewrite Hv, IH. reflexivity.
Qed.

Lemma sum_const (c : Q) (xs : list Q) :
  Forall (fun x => x == c) xs -> Py.sum xs == c * Py.len xs.
Proof.
  intros Hall. apply Qle_antisym; apply (sum_bounds c c xs);
    (eapply Forall_impl; [exact Hall |]); intros x Hx; rewrite Hx; split; apply Qle_refl.
Qed.

Lemma mean_const (c : Q) (x : Q) (xs : list Q) :
  Forall (fun y => y == c) (x :: xs) -> Py.sum (x :: xs) / Py.len (x :: xs) == c.
Proof.
  intros Hall. rewrite (sum_const c _ Hall). pose proof (len_pos x xs) as Hn.
  field. intros E. rewrite E in Hn. discriminate.
Qed.

(** The summary of diffs that are all 0 under thresholds that are not
    negative. *)
Lemma summary_of_zeros th (v : Q) (vals : list Q) :
  Forall (fun d => d = 0) (v :: vals) -> 0 <= near th -> 0 <= wide th ->
  let s := metric_summary th (v :: vals) in
  exact_pct s = 100 /\ near_pct s = 100 /\ wide_pct s = 100 /\
  mean_diff s = 0 /\ std_dev s = 0.
Proof.
  intros Hz Hnear Hwide s. pose proof (len_pos v vals) as Hn.
  assert (Hpct : forall bound, 0 <= bound ->
            Py.round (Py.count (fun d => Py.le d bound) (v :: vals) / Py.len (v :: vals) * 100) 1
            = 100).
  { intros bound Hb. unfold Py.count. rewrite filter_all.
    - transitivity (Py.round 100 1); [apply round_comp | reflexivity].
      field. intros E. rewrite E in Hn. discriminate.
    - eapply Forall_impl; [exact Hz |]. intros d ->. unfold Py.le.
      apply Qle_bool_iff, Hb. }
  assert (Hq : Forall (fun d => d == 0) (v :: vals)).
  { eapply Forall_impl; [exact Hz |]. intros d ->. reflexivity. }
  pose proof (mean_const 0 v vals Hq) as Hmean.
  unfold s, metric_summary. cbn [exact_pct near_pct wide_pct mean_diff std_dev].
  repeat split.
  - apply Hpct. discriminate.
  - apply Hpct, Hnear.
  - apply Hpct, Hwide.
  - transitivity (Py.round 0 2); [apply round_comp, Hmean | reflexivity].
  - destruct (1 <? length (v :: vals))%nat; [| reflexivity].
    transitivity (Py.round_sqrt 0 2); [apply round_sqrt_comp | reflexivity].
    set (m := Py.sum (v :: vals) / Py.len (v :: vals)) in *.
    assert (Hsq : Forall (fun y => y == 0) (map (fun d => (d - m) ^ 2) (v :: vals))).
    { apply Forall_fmap. eapply Forall_impl; [exact Hz |]. intros d ->.
      cbn. rewrite Hmean. reflexivity. }
    rewrite (sum_const 0 _ Hsq). field. intros E. rewrite E in Hn. discriminate.
Qed.

End Perfect.

Lemma filter_none {A} (P : A -> Prop) `{forall x, Decision (P x)} (l : list A) :
  (forall x, x ∈ l -> ~ P x) -> filter P l = [].
Proof.
  induction l as [| x l IH]; intros Hno; [reflexivity |].
  rewrite filter_cons, decide_False by (apply Hno; left).
  apply IH. intros y Hy. apply Hno. right. exact Hy.
Qed.

(** With distinct names, a record is matched with itself. *)
Lemma matching_self (recs : list ObservationRecord) (fc : ObservationRecord) :
  NoDup (map region recs) -> fc ∈ recs -> matching_actual recs (region fc) = Some fc.
Proof.
  unfold matching_actual. induction recs as [| a recs IH]; intros Hnd Hin.
  - inversion Hin.
  - cbn [map] in Hnd. apply NoDup_cons in Hnd as [Ha Hnd].
    rewrite filter_cons. apply elem_of_cons in Hin as [-> | Hin].
    + rewrite decide_True by reflexivity.
      rewrite filter_none; [reflexivity |].
      intros x Hx E. apply Ha. rewrite <- E. apply (list_elem_of_fmap_2 region), Hx.
    + rewrite decide_False; [apply IH; assumption |].
      intros E. apply Ha. rewrite E. apply (list_elem_of_fmap_2 region), Hin.
Qed.

Lemma zero_diffs (recs fcs : list ObservationRecord) (metric : string) :
  NoDup (map region recs) -> (forall fc, fc ∈ fcs -> fc ∈ recs) ->
  Forall (fun d => d = 0%Q) (metric_diffs recs metric fcs).
Proof.
  intros Hnd Hsub. unfold metric_diffs.
  induction fcs as [| fc fcs IH]; [constructor |].
  cbn [flat_map]. apply Forall_app. split.
  - unfold sample. rewrite (matching_self recs fc Hnd) by (apply Hsub; left).
    unfold metric_comparison. cbn [mc_diff].
    destruct (get fc metric) as [v |]; repeat constructor.
    transitivity (Py.round 0 2); [apply round_comp | reflexivity].
    assert (E : (v - v == 0)%Q) by ring. rewrite E. reflexivity.
  - apply IH. intros fc' Hin. apply Hsub. right. exact Hin.
Qed.

(** X10 — a forecast that came true.  When the actual records are the
    forecast records themselves, with distinct region names, every non-null
    summary has the three percentages at 100 and mean_diff and std_dev at 0;
    the overall score is 100 as soon as one metric has data, and avg_std_dev is
    0. *)
Theorem X10_perfect_forecast (recs : list ObservationRecord) :
  NoDup (map region recs) ->
  let r := compute_accuracy recs recs in
  (forall metric s, dict_get metric (summary r) = Some (Some s) ->
     exact_pct s = 100%Q /\ near_pct s = 100%Q /\ wide_pct s = 100%Q /\
     mean_diff s = 0%Q /\ std_dev s = 0%Q) /\
  overall_score r = (if valid_summaries r is [] then 0%Q else 100%Q) /\
  avg_std_dev r = 0%Q.
Proof.
  intros Hnd r.
  assert (Hall : forall metric s, dict_get metric (summary r) = Some (Some s) ->
     exact_pct s = 100%Q /\ near_pct s = 100%Q /\ wide_pct s = 100%Q /\
     mean_diff s = 0%Q /\ std_dev s = 0%Q).
  { intros metric s Hs. unfold r, compute_accuracy in Hs.
    apply summary_lookup_Some in Hs as (v & vals & Hd & Hin & ->).
    rewrite compare_regions_diffs in Hd by exact Hin.
    pose proof (zero_diffs recs recs metric Hnd (fun _ H => H)) as Hz. rewrite Hd in Hz.
    destruct (configured_thresholds_ordered metric Hin) as [H1 H2].
    apply (summary_of_zeros _ v vals Hz).
    - eapply Qle_trans; [| exact H1]. discriminate.
    - eapply Qle_trans; [| exact H2]. eapply Qle_trans; [| exact H1]. discriminate. }
  split; [exact Hall |].
  destruct (compute_scores THRESHOLDS recs recs) as [Ho Ha].
  fold compute_accuracy in Ho, Ha. fold r in Ho, Ha. rewrite Ho, Ha.
  assert (Hw : Forall (fun y => (y == 100)%Q) (map wide_pct (valid_summaries r))).
  { apply Forall_fmap, Forall_forall. intros s Hin.
    apply valid_summaries_lookup in Hin as [metric Hs].
    destruct (Hall metric s Hs) as (_ & _ & E & _). cbn. rewrite E. reflexivity. }
  assert (Hs : Forall (fun y => (y == 0)%Q) (map std_dev (valid_summaries r))).
  { apply Forall_fmap, Forall_forall. intros s Hin.
    apply valid_summaries_lookup in Hin as [metric Hs].
    destruct (Hall metric s Hs) as (_ & _ & _ & _ & E). cbn. rewrite E. reflexivity. }
  destruct (valid_summaries r) as [| s0 ss]; [split; reflexivity |].
  unfold mean. cbn [map] in *. split.
  - transitivity (Py.round 100 1); [apply round_comp, mean_const, Hw | reflexivity].
  - transitivity (Py.round 0 2); [apply round_comp, mean_const, Hs | reflexivity].
Qed.

Lemma X10_perfect_forecast_witness :
  let recs := [mkrec "A" (Some 20%Q) None (Some 3%Q) None None;
               mkrec "B" (Some 25%Q) (Some 11%Q) None None None] in
  let r := compute_accuracy recs recs in
  (forall metric s, dict_get metric (summary r) = Some (Some s) ->
     exact_pct s = 100%Q /\ near_pct s = 100%Q /\ wide_pct s = 100%Q /\
     mean_diff s = 0%Q /\ std_dev s = 0%Q) /\
  overall_score r = (if valid_summaries r is [] then 0%Q else 100%Q) /\
  avg_std_dev r = 0%Q.
Proof.
  apply (X10_perfect_forecast [mkrec "A" (Some 20%Q) None (Some 3%Q) None None;
                               mkrec "B" (Some 25%Q) (Some 11%Q) None None None]).
  apply (bool_decide_unpack _). vm_compute. reflexivity.
Defined.

(** ** The observation fetchers: what they read *)

Lemma day_humidity_past_end target_date (vals : list (option Q)) (i : nat)
    (times : list string) :
  (length vals <= i)%nat -> day_humidity_from target_date vals i times = [].
Proof.
  revert i. induction times as [| t ts IH]; intros i Hi; [reflexivity |].
  cbn [day_humidity_from]. rewrite (lookup_ge_None_2 vals i) by exact Hi.
  rewrite IH by lia. destruct (String.prefix target_date t); reflexivity.
Qed.

Lemma day_humidity_zip target_date (vals : list (option Q)) (i : nat)
    (times : list string) :
  day_humidity_from target_date vals i times =
  omap (hour_value target_date) (zip times (drop i vals)).
Proof.
  revert i. induction times as [| t ts IH]; intros i; [reflexivity |].
  cbn [day_humidity_from]. destruct (vals !! i) as [v |] eqn:E.
  - rewrite (drop_S vals v i E). cbn [zip zip_with omap list_omap].
    unfold hour_value at 1. cbn [fst snd]. rewrite IH.
    destruct (String.prefix target_date t), v; reflexivity.
  - apply lookup_ge_None_1 in E. rewrite drop_ge by exact E.
    rewrite day_humidity_past_end by lia.
    destruct (String.prefix target_date t); destruct ts; reflexivity.
Qed.

(** X11 — the hours of the target day.  The humidity values [fetch_actual]
    averages are those of the hourly time stamps that start with the target
    date, paired by position with the humidity array up to the shorter of the
    two, nulls left out; hours that stand before the target day's, with their
    values, change nothing. *)
Theorem X11_day_humidity (target_date : string) (vals : list (option Q))
    (times : list string) :
  day_humidity_from target_date vals 0 times =
    omap (hour_value target_date) (zip times vals) /\
  forall (times0 : list string) (vals0 : list (option Q)),
    length times0 = length vals0 ->
    Forall (fun t => String.prefix target_date t = false) times0 ->
    day_humidity_from target_date (vals0 ++ vals) 0 (times0 ++ times) =
    day_humidity_from target_date vals 0 times.
Proof.
  split; [rewrite day_humidity_zip, drop_0; reflexivity |].
  intros times0 vals0 Hlen Hother. rewrite !day_humidity_zip, !drop_0.
  rewrite zip_with_app by exact Hlen. rewrite omap_app.
  replace (omap (hour_value target_date) (zip times0 vals0)) with (@nil Q); [reflexivity |].
  clear times vals. revert vals0 Hlen.
  induction Hother as [| t ts Ht _ IH]; intros [| v vs] Hlen; try discriminate; [reflexivity |].
  cbn [zip zip_with omap list_omap]. unfold hour_value at 1. cbn [fst]. rewrite Ht.
  apply IH. cbn in Hlen. lia.
Qed.


Lemma index_of_missing target_date (dates : list string) :
  target_date ∉ dates -> index_of target_date dates = raise ValueError.
Proof.
  intros Hnot. unfold index_of.
  destruct (list_find (fun d => d = target_date) dates) as [[k x] |] eqn:E; [| reflexivity].
  exfalso. apply list_find_Some in E as (Hk & -> & _).
  apply Hnot, list_elem_of_lookup. eauto.
Qed.

Lemma index_of_present target_date (dates : list string) :
  target_date ∈ dates -> exists i, index_of target_date dates = ret i.
Proof.
  intros Hin. unfold index_of.
  destruct (list_find (fun d => d = target_date) dates) as [[k x] |] eqn:E; [eauto |].
  exfalso. apply list_find_None in E. rewrite Forall_forall in E.
  apply (E target_date Hin). reflexivity.
Qed.

Lemma daily_value_outcome (arr : option (list (option Q))) (idx : nat) :
  (exists v, daily_value arr idx = ret v) \/ daily_value arr idx = raise IndexError.
Proof.
  unfold daily_value, py_index. destruct (default [None] arr !! idx); eauto.
Qed.

(** X12 — the target date decides between ValueError and the rest.  With
    an answer from the provider, [fetch_actual] raises ValueError exactly when
    the target date is not among the daily dates (a response without "daily"
    or without its "time" included); otherwise it returns a record or raises
    IndexError, never anything else. *)
Theorem X12_fetch_actual_errors (p : Provider) (reg : Region) (target_date : string)
    (data : Response) :
  p reg target_date = ret data ->
  let dates := default [] (d_time (default no_daily (daily data))) in
  (fetch_actual p reg target_date = raise ValueError <-> target_date ∉ dates) /\
  (target_date ∈ dates ->
     (exists rec, fetch_actual p reg target_date = ret rec) \/
     fetch_actual p reg target_date = raise IndexError).
Proof.
  intros Hp dates.
  assert (Hin : target_date ∈ dates ->
     (exists rec, fetch_actual p reg target_date = ret rec) \/
     fetch_actual p reg target_date = raise IndexError).
  { intros Hd. destruct (index_of_present _ _ Hd) as [i Hi].
    unfold fetch_actual. rewrite Hp. cbn [bind ret]. fold dates. rewrite Hi. cbn [bind ret].
    destruct (daily_value_outcome (temperature_2m_max (default no_daily (daily data))) i)
      as [[v1 ->] | ->]; [| right; reflexivity]. cbn [bind ret].
    destruct (daily_value_outcome (temperature_2m_min (default no_daily (daily data))) i)
      as [[v2 ->] | ->]; [| right; reflexivity]. cbn [bind ret].
    destruct (daily_value_outcome (wind_speed_10m_max (default no_daily (daily data))) i)
      as [[v3 ->] | ->]; [| right; reflexivity]. cbn [bind ret].
    destruct (daily_value_outcome (precipitation_sum (default no_daily (daily data))) i)
      as [[v4 ->] | ->]; [| right; reflexivity]. cbn [bind ret].
    left. eauto. }
  split; [| exact Hin]. split.
  - intros Hv Hd. destruct (Hin Hd) as [[rec Hr] | Hr]; rewrite Hr in Hv; discriminate.
  - intros Hd. unfold fetch_actual. rewrite Hp. cbn [bind ret]. fold dates.
    rewrite (index_of_missing _ _ Hd). reflexivity.
Qed.

Lemma X12_fetch_actual_errors_witness :
  let p : Provider := fun _ _ => ret {| daily := None; hourly := None |} in
  (fetch_actual p sydney "2024-01-01" = raise ValueError <-> "2024-01-01" ∉ @nil string) /\
  ("2024-01-01" ∈ @nil string ->
     (exists rec, fetch_actual p sydney "2024-01-01" = ret rec) \/
     fetch_actual p sydney "2024-01-01" = raise IndexError).
Proof.
  intros p.
  apply (X12_fetch_actual_errors p sydney "2024-01-01" {| daily := None; hourly := None |}).
  reflexivity.
Defined.







(** ** The forecast-collection phase: requests and records *)

Lemma fetch_forecast_identity (p : Provider) (reg : Region) (day : string)
    (rec : ObservationRecord) :
  fetch_forecast p reg day = ret rec -> region rec = r_name reg /\ date rec = day.
Proof.
  unfold fetch_forecast. intros H.
  repeat match type of H with
         | bind ?m _ = _ =>
             let E := fresh "E" in
             destruct m eqn:E; cbn [bind] in H; [discriminate |]
         end.
  unfold ret in H. inversion H. auto.
Qed.

Lemma fetch_actual_identity (p : Provider) (reg : Region) (day : string)
    (rec : ObservationRecord) :
  fetch_actual p reg day = ret rec -> region rec = r_name reg /\ date rec = day.
Proof.
  unfold fetch_actual. intros H.
  repeat match type of H with
         | bind ?m _ = _ =>
             let E := fresh "E" in
             destruct m eqn:E; cbn [bind] in H; [discriminate |]
         end.
  unfold ret in H. inversion H. auto.
Qed.

Lemma requested_app (e1 e2 : list Event) : requested (e1 ++ e2) = requested e1 ++ requested e2.
Proof. apply omap_app. Qed.

Lemma requested_regions (fetch : Region -> result ObservationRecord) (regs : list Region) :
  requested (flat_map (region_events fetch) regs) = regs.
Proof.
  induction regs as [| reg regs IH]; [reflexivity |].
  cbn [flat_map]. rewrite requested_app, IH. unfold region_events.
  destruct (fetch reg); reflexivity.
Qed.

(** The names of the collected records: the catalog names of the regions
    whose fetch succeeded, in catalog order. *)
Lemma collected_names (fetch : Region -> result ObservationRecord) (regs : list Region) :
  (forall reg rec, fetch reg = ret rec -> region rec = r_name reg) ->
  map region (omap (collected fetch) regs) =
  map r_name (filter (fun reg => is_Some (collected fetch reg)) regs).
Proof.
  intros Hid. induction regs as [| reg regs IH]; [reflexivity |].
  cbn [omap list_omap]. rewrite filter_cons.
  destruct (collected fetch reg) as [rec |] eqn:Ec.
  - rewrite decide_True by eauto. cbn [map]. rewrite IH. f_equal.
    apply Hid. unfold collected in Ec. destruct (fetch reg); [discriminate |].
    injection Ec as ->. reflexivity.
  - rewrite decide_False by (intros [? ?]; discriminate). exact IH.
Qed.

Lemma NoDup_map_filter {A B} (f : A -> B) (P : A -> Prop) `{forall x, Decision (P x)}
    (l : list A) :
  NoDup (map f l) -> NoDup (map f (filter P l)).
Proof.
  induction l as [| x l IH]; intros Hnd; [constructor |].
  cbn [map] in Hnd. apply NoDup_cons in Hnd as [Hx Hnd].
  rewrite filter_cons. destruct (decide (P x)); [| apply IH, Hnd].
  cbn [map]. apply NoDup_cons. split; [| apply IH, Hnd].
  intros Hin. apply Hx. apply (list_elem_of_fmap f) in Hin as (y & -> & Hy).
  apply list_elem_of_filter in Hy as [_ Hy]. apply (list_elem_of_fmap_2 f), Hy.
Qed.

Lemma NSW_REGIONS_names_NoDup : NoDup (map r_name NSW_REGIONS).
Proof. apply (bool_decide_unpack _). vm_compute. reflexivity. Qed.

Lemma forecast_main_value (env : Env) (w : World) :
  let fetch := fun reg => fetch_forecast (http env) reg (today env) in
  let forecasts := omap (collected fetch) NSW_REGIONS in
  collect_forecast.main env w =
  ((if decide (length forecasts = length NSW_REGIONS) then 0 else 1)%nat,
   {| store :=
        {| forecasts_dir :=
             <[(today env ++ ".json")%string :=
                 {| c_date := today env; collected_at := utc_now env 0;
                    c_type := "forecast"; region_count := length forecasts;
                    regions := forecasts |}]> (forecasts_dir (store w));
           actuals_dir := actuals_dir (store w);
           results_dir := results_dir (store w) |};
      trace :=
        trace w ++
        [Print ("Collecting forecasts for " ++ today env ++ " (AEST)")%string;
         Print ("Current time: " ++ now_aest env)%string] ++
        flat_map (region_events fetch) NSW_REGIONS ++
        [PrintSaved (length forecasts)
           (repo_root env ++ "/data/forecasts/" ++ today env ++ ".json")%string] |}).
Proof.
  intros fetch forecasts. unfold collect_forecast.main.
  rewrite collect_regions_fold. cbn [app]. fold fetch. fold forecasts.
  unfold emit, write_forecast. cbn [store trace forecasts_dir actuals_dir results_dir].
  f_equal.
  - destruct (decide (length forecasts = length NSW_REGIONS)) as [E | NE].
    + rewrite E, Nat.eqb_refl. reflexivity.
    + apply Nat.eqb_neq in NE. rewrite NE. reflexivity.
  - f_equal. rewrite <- !app_assoc. reflexivity.
Qed.

(** X15 — one forecast run.  Whatever fails, the run makes exactly one
    request per region of the catalog, in catalog order; the records it
    persists carry the target date and the catalog names of the regions whose
    fetch succeeded, in catalog order and without repetition; it writes the
    forecast document of the target date and no other file. *)
Theorem X15_forecast_run (env : Env) (w : World) :
  let r := collect_forecast.main env w in
  let fetch := fun reg => fetch_forecast (http env) reg (today env) in
  requested (drop (length (trace w)) (trace r.2)) = NSW_REGIONS /\
  (exists doc,
     forecasts_dir (store r.2) !! (today env ++ ".json")%string = Some doc /\
     map region (regions doc) =
       map r_name (filter (fun reg => is_Some (collected fetch reg)) NSW_REGIONS) /\
     NoDup (map region (regions doc)) /\
     Forall (fun rec => date rec = today env) (regions doc)) /\
  (forall name, name <> (today env ++ ".json")%string ->
     forecasts_dir (store r.2) !! name = forecasts_dir (store w) !! name) /\
  actuals_dir (store r.2) = actuals_dir (store w) /\
  results_dir (store r.2) = results_dir (store w).
Proof.
  intros r fetch. unfold r. rewrite forecast_main_value. fold fetch.
  cbn [fst snd store trace forecasts_dir actuals_dir results_dir].
  assert (Hnames : map region (omap (collected fetch) NSW_REGIONS) =
            map r_name (filter (fun reg => is_Some (collected fetch reg)) NSW_REGIONS)).
  { apply collected_names. intros reg rec H. apply (fetch_forecast_identity _ _ _ _ H). }
  split; [| split; [| split; [| split; reflexivity]]].
  - rewrite drop_app_length, !requested_app, requested_regions. reflexivity.
  - eexists. split; [apply lookup_insert_eq |]. cbn [regions].
    split; [exact Hnames |]. split.
    + rewrite Hnames. apply NoDup_map_filter, NSW_REGIONS_names_NoDup.
    + apply Forall_forall. intros rec Hin.
      apply list_elem_of_omap in Hin as (reg & _ & Hc). unfold collected in Hc.
      destruct (fetch reg) as [e | rec'] eqn:E; [discriminate |]. injection Hc as ->.
      apply (fetch_forecast_identity _ _ _ _ E).
  - intros name Hne. apply lookup_insert_ne. congruence.
Qed.

(** ** The summary builder: what the feed depends on *)

Lemma leb_cases (a b : string) :
  String.leb a b = true <-> a = b \/ OrderedTypeEx.String_as_OT.lt a b.
Proof.
  unfold String.leb.
  pose proof (OrderedTypeEx.String_as_OT.cmp_eq a b) as He.
  pose proof (OrderedTypeEx.String_as_OT.cmp_lt a b) as Hl.
  pose proof (OrderedTypeEx.String_as_OT.cmp_lt b a) as Hg.
  pose proof (OrderedTypeEx.String_as_OT.cmp_antisym b a) as Ha.
  unfold OrderedTypeEx.String_as_OT.cmp in *.
  destruct (String.compare a b) eqn:E; split; intros H; try discriminate; try tauto.
  exfalso. cbn in Ha. apply Hg in Ha. destruct H as [-> | Hlt].
  - apply (OrderedTypeEx.String_as_OT.lt_not_eq _ _ Ha). reflexivity.
  - apply (OrderedTypeEx.String_as_OT.lt_not_eq a a); [| reflexivity].
    apply (OrderedTypeEx.String_as_OT.lt_trans _ _ _ Hlt Ha).
Qed.

Lemma leb_trans (a b c : string) :
  String.leb a b = true -> String.leb b c = true -> String.leb a c = true.
Proof.
  rewrite !leb_cases. intros [-> | Hab] [-> | Hbc]; auto.
  right. apply (OrderedTypeEx.String_as_OT.lt_trans _ _ _ Hab Hbc).
Qed.

Lemma leb_trans' : Transitive (fun a b => String.leb a b = true).
Proof. intros a b c. apply leb_trans. Qed.

Lemma sorted_names_Sorted (l : list string) :
  Sorted (fun a b => String.leb a b = true) (sorted_names l).
Proof. apply py_sort_Sorted, String.leb_total. Qed.

Lemma StronglySorted_filter {A} (R : A -> A -> Prop) (P : A -> Prop)
    `{forall x, Decision (P x)} (l : list A) :
  StronglySorted R l -> StronglySorted R (filter P l).
Proof.
  induction 1 as [| x l Hs IH Hall]; [constructor |].
  rewrite filter_cons. destruct (decide (P x)); [| exact IH].
  constructor; [exact IH |]. apply Forall_forall. intros y Hy.
  apply list_elem_of_filter in Hy as [_ Hy]. rewrite Forall_forall in Hall. apply Hall, Hy.
Qed.

(** The result names of a directory, sorted: a function of the set of
    names. *)
Lemma sorted_result_names (l1 l2 : list string) :
  filter (fun n => result_name n = true) l1 ≡ₚ filter (fun n => result_name n = true) l2 ->
  filter (fun n => result_name n = true) (sorted_names l1) =
  filter (fun n => result_name n = true) (sorted_names l2).
Proof.
  intros Hperm.
  apply (@Sorted_unique string (fun a b => String.leb a b = true)).
  - intros a b c. apply leb_trans.
  - intros a b. apply String.leb_antisym.
  - apply StronglySorted_Sorted, StronglySorted_filter, Sorted_StronglySorted.
    + intros a b c. apply leb_trans.
    + apply sorted_names_Sorted.
  - apply StronglySorted_Sorted, StronglySorted_filter, Sorted_StronglySorted.
    + intros a b c. apply leb_trans.
    + apply sorted_names_Sorted.
  - unfold sorted_names. rewrite !py_sort_perm. exact Hperm.
Qed.

Lemma entry_of_other (dir : gmap string ResultsFile) (name : string) :
  result_name name = false -> entry_of dir name = None.
Proof. unfold entry_of. intros ->. reflexivity. Qed.

Lemma entries_filter (dir : gmap string ResultsFile) (names : list string) :
  omap (entry_of dir) names =
  omap (entry_of dir) (filter (fun n => result_name n = true) names).
Proof.
  induction names as [| n names IH]; [reflexivity |].
  rewrite filter_cons. cbn [omap list_omap].
  destruct (decide (result_name n = true)) as [E | NE].
  - cbn [omap list_omap]. rewrite IH. reflexivity.
  - rewrite entry_of_other by (destruct (result_name n); congruence). exact IH.
Qed.

Lemma elem_of_listdir (dir : gmap string ResultsFile) (name : string) :
  name ∈ listdir dir <-> is_Some (dir !! name).
Proof.
  unfold listdir. rewrite list_elem_of_fmap. split.
  - intros ([n f] & -> & H). apply elem_of_map_to_list in H. eauto.
  - intros [f H]. exists (name, f). split; [reflexivity |].
    apply elem_of_map_to_list. exact H.
Qed.

(** Two directories that hold the same files under the result names give
    the same feed entries. *)
Lemma entries_agree (dir1 dir2 : gmap string ResultsFile) :
  (forall name, result_name name = true -> dir1 !! name = dir2 !! name) ->
  omap (entry_of dir1) (sorted_names (listdir dir1)) =
  omap (entry_of dir2) (sorted_names (listdir dir2)).
Proof.
  intros Hagree.
  rewrite (entries_filter dir1), (entries_filter dir2).
  rewrite (sorted_result_names (listdir dir1) (listdir dir2)).
  - apply list_omap_ext. apply Forall_Forall2_diag, Forall_forall.
    intros n Hn. apply list_elem_of_filter in Hn as [Hn _].
    unfold entry_of. rewrite Hn, (Hagree n Hn). reflexivity.
  - apply NoDup_Permutation.
    + apply NoDup_filter, NoDup_fst_map_to_list.
    + apply NoDup_filter, NoDup_fst_map_to_list.
    + intros n. rewrite !list_elem_of_filter, !elem_of_listdir.
      split; intros [Hn Hs]; (split; [exact Hn |]);
        [rewrite <- (Hagree n Hn) | rewrite (Hagree n Hn)]; exact Hs.
Qed.

Lemma rebuild_summary_value (stamp : string) (w : World) :
  loadable (results_dir (store w)) ->
  let entries :=
    sort_by_date_desc
      (omap (entry_of (results_dir (store w)))
            (sorted_names (listdir (results_dir (store w))))) in
  rebuild_summary stamp w =
  ret (emit (PrintRebuilt (length entries))
            (write_result "summary.json"
               (SummaryFile {| last_updated := stamp; total_days := length entries;
                               results := entries |}) w)).
Proof.
  intros Hok entries. unfold rebuild_summary.
  rewrite (load_files_fold (results_dir (store w)) _ []).
  - reflexivity.
  - intros name Hin Hname.
    apply (listdir_loadable _ name Hok); [| exact Hname].
    unfold sorted_names in Hin. rewrite py_sort_perm in Hin. exact Hin.
Qed.

Lemma load_files_raised dir (names : list string) (e : PyError) :
  foldl (load_file dir) (raise e) names = raise e.
Proof. induction names as [| n names IH]; [reflexivity | exact IH]. Qed.

Lemma load_result_unreadable (f : ResultsFile) :
  is_day_result f = false -> exists e, load_result f = raise e.
Proof. destruct f as [d | feed | why]; [discriminate | eauto ..]. Qed.

Lemma load_file_raises dir (acc : list SummaryEntry) (name : string) (f : ResultsFile)
    (e : PyError) :
  result_name name = true -> dir !! name = Some f -> load_result f = raise e ->
  load_file dir (ret acc) name = raise e.
Proof.
  unfold load_file, result_name. cbn [bind ret]. intros Hname Hf He.
  destruct (endswith name ".json"), (String.eqb name "summary.json");
    cbn in Hname |- *; try discriminate.
  rewrite Hf, He. reflexivity.
Qed.

(** The loop stops at the first file it cannot read. *)
Lemma load_files_first_unreadable dir (pre post : list string) (name : string)
    (f : ResultsFile) (e : PyError) (acc : list SummaryEntry) :
  (forall n, n ∈ pre -> result_name n = true ->
     exists d, dir !! n = Some (DayResultFile d)) ->
  result_name name = true -> dir !! name = Some f -> load_result f = raise e ->
  foldl (load_file dir) (ret acc) (pre ++ name :: post) = raise e.
Proof.
  intros Hpre Hname Hf He.
  rewrite foldl_app, (load_files_fold dir pre acc Hpre). cbn [foldl].
  rewrite (load_file_raises dir _ name f e Hname Hf He). apply load_files_raised.
Qed.

Lemma sorted_names_NoDup (dir : gmap string ResultsFile) :
  NoDup (sorted_names (listdir dir)).
Proof.
  unfold sorted_names. rewrite py_sort_perm. apply NoDup_fst_map_to_list.
Qed.

Lemma elem_of_sorted_names (dir : gmap string ResultsFile) (name : string) :
  name ∈ sorted_names (listdir dir) <-> is_Some (dir !! name).
Proof. unfold sorted_names. rewrite py_sort_perm. apply elem_of_listdir. Qed.

(** A rebuild raises what the first unreadable file raises. *)
Lemma rebuild_summary_raises (stamp : string) (w : World) (name : string)
    (f : ResultsFile) (e : PyError) :
  first_unreadable (results_dir (store w)) name f -> load_result f = raise e ->
  rebuild_summary stamp w = raise e.
Proof.
  intros (Hf & Hname & Hbad & Hmin) He. unfold rebuild_summary. cbv zeta.
  set (dir := results_dir (store w)) in *.
  assert (Hin : name ∈ sorted_names (listdir dir)).
  { apply elem_of_sorted_names. eauto. }
  apply list_elem_of_split in Hin as (pre & post & Hsplit).
  pose proof (sorted_names_NoDup dir) as Hnd.
  assert (Hs : StronglySorted (fun a b => String.leb a b = true)
                              (sorted_names (listdir dir))).
  { apply Sorted_StronglySorted; [exact leb_trans' | apply sorted_names_Sorted]. }
  rewrite Hsplit in Hnd, Hs |- *.
  apply StronglySorted_app in Hs as (Hle & _ & _).
  apply NoDup_app in Hnd as (_ & Hdisj & _).
  rewrite (load_files_first_unreadable dir pre post name f e []);
    [reflexivity | | assumption ..].
  intros n Hn Hrn.
  assert (Hsome : is_Some (dir !! n)).
  { apply elem_of_sorted_names. rewrite Hsplit. apply elem_of_app. left. exact Hn. }
  destruct Hsome as [fn Hfn].
  destruct fn as [d | feed | why]; [eauto | exfalso ..].
  - apply (Hdisj n Hn).
    rewrite (String.leb_antisym n name); [left | apply Hle; [exact Hn | left] |].
    apply (Hmin n _ Hfn Hrn). reflexivity.
  - apply (Hdisj n Hn).
    rewrite (String.leb_antisym n name); [left | apply Hle; [exact Hn | left] |].
    apply (Hmin n _ Hfn Hrn). reflexivity.
Qed.

(** A directory that cannot be loaded has a first unreadable file. *)
Lemma first_unreadable_exists (dir : gmap string ResultsFile) :
  ~ loadable dir -> exists name f, first_unreadable dir name f.
Proof.
  intros Hbad.
  assert (Hs : StronglySorted (fun a b => String.leb a b = true)
                              (sorted_names (listdir dir))).
  { apply Sorted_StronglySorted; [exact leb_trans' | apply sorted_names_Sorted]. }
  destruct (list_find (fun n => unreadable dir n = true) (sorted_names (listdir dir)))
    as [[i name] |] eqn:E.
  - apply list_find_Some in E as (Hi & Hun & Hbefore).
    unfold unreadable in Hun. apply andb_prop in Hun as [Hname Hun].
    destruct (dir !! name) as [f |] eqn:Hf; [| discriminate].
    exists name, f. split; [exact Hf |]. split; [exact Hname |].
    split; [destruct (is_day_result f); [discriminate | reflexivity] |].
    intros name' f' Hf' Hname' Hbad'.
    assert (Hin : name' ∈ sorted_names (listdir dir)).
    { apply elem_of_sorted_names. eauto. }
    apply list_elem_of_lookup in Hin as [j Hj].
    destruct (decide (j < i)%nat) as [Hlt | Hge].
    + exfalso. apply (Hbefore j name' Hj Hlt).
      unfold unreadable. rewrite Hname', Hf', Hbad'. reflexivity.
    + destruct (decide (j = i)) as [-> | Hne].
      * rewrite Hi in Hj. injection Hj as ->. apply leb_cases. left. reflexivity.
      * rewrite <- (take_drop_middle _ i name Hi) in Hs, Hj.
        apply StronglySorted_app in Hs as (_ & _ & Hs).
        apply StronglySorted_cons in Hs as [Hall _].
        rewrite Forall_forall in Hall. apply Hall.
        apply list_elem_of_lookup. exists (j - S i)%nat.
        pose proof (lookup_lt_Some _ _ _ Hi) as Hlen.
        rewrite lookup_app_r in Hj by (rewrite length_take; lia).
        rewrite length_take, Nat.min_l in Hj by lia.
        destruct (j - i)%nat as [| m] eqn:Em; [lia |].
        cbn [lookup list_lookup] in Hj. replace (j - S i)%nat with m by lia. exact Hj.
  - exfalso. apply Hbad. apply list_find_None in E. rewrite Forall_forall in E.
    intros name f Hf Hname.
    destruct (is_day_result f) eqn:Hday; [reflexivity |]. exfalso.
    apply (E name); [apply elem_of_sorted_names; eauto |].
    unfold unreadable. rewrite Hname, Hf, Hday. reflexivity.
Qed.

Lemma first_unreadable_insert_day (dir : gmap string ResultsFile) (key name : string)
    (d : DayResult) (f : ResultsFile) :
  first_unreadable (delete key dir) name f ->
  first_unreadable (<[key := DayResultFile d]> dir) name f.
Proof.
  intros (Hf & Hname & Hbad & Hmin).
  apply lookup_delete_Some in Hf as [Hne Hf].
  split; [rewrite lookup_insert_ne by exact Hne; exact Hf |].
  split; [exact Hname |]. split; [exact Hbad |].
  intros name' f' Hf' Hname' Hbad'.
  apply lookup_insert_Some in Hf' as [[_ <-] | [Hne' Hf']]; [discriminate |].
  apply (Hmin name' f'); [| assumption ..].
  apply lookup_delete_Some. split; assumption.
Qed.

Lemma loadable_insert_feed (dir : gmap string ResultsFile) (f : ResultsFile) :
  loadable dir -> loadable (<["summary.json" := f]> dir).
Proof. intros Hok. apply map_Forall_insert_2; [discriminate | exact Hok]. Qed.

Lemma loadable_insert_day (dir : gmap string ResultsFile) (name : string) (d : DayResult) :
  loadable dir -> loadable (<[name := DayResultFile d]> dir).
Proof. intros Hok. apply map_Forall_insert_2; [reflexivity | exact Hok]. Qed.

Lemma feed_of_written (n : nat) (feed : SummaryFeed) (w : World) :
  feed_of (ret (emit (PrintRebuilt n) (write_result "summary.json" (SummaryFile feed) w)))
  = Some feed.
Proof.
  unfold feed_of, ret, emit, write_result. cbn [store results_dir].
  rewrite lookup_insert_eq. reflexivity.
Qed.

(** X16 — the outcome of a rebuild.  [rebuild_summary] succeeds when every
    JSON file of the results directory other than the feed's own is a day
    result, and then changes no file but [summary.json].  Otherwise it raises
    the exception that loading the first such file in name order that is not
    a day result raises, and writes nothing. *)
Theorem X16_rebuild_outcome (stamp : string) (w : World) :
  (loadable (results_dir (store w)) ->
   exists w', rebuild_summary stamp w = ret w' /\
     forecasts_dir (store w') = forecasts_dir (store w) /\
     actuals_dir (store w') = actuals_dir (store w) /\
     forall name, name <> "summary.json" ->
       results_dir (store w') !! name = results_dir (store w) !! name) /\
  (~ loadable (results_dir (store w)) ->
   exists name f e,
     first_unreadable (results_dir (store w)) name f /\
     load_result f = raise e /\
     rebuild_summary stamp w = raise e).
Proof.
  split.
  - intros Hok. rewrite (rebuild_summary_value stamp w Hok). eexists.
    split; [reflexivity |]. cbn [emit write_result store forecasts_dir actuals_dir results_dir].
    split; [reflexivity |]. split; [reflexivity |].
    intros name Hne. apply lookup_insert_ne. congruence.
  - intros Hbad. apply first_unreadable_exists in Hbad as (name & f & Hfirst).
    destruct (load_result_unreadable f) as [e He]; [apply Hfirst |].
    exists name, f, e. split; [exact Hfirst |]. split; [exact He |].
    apply (rebuild_summary_raises stamp w name f e Hfirst He).
Qed.

(** X17 — what the feed depends on.  Two results directories that hold the
    same files under the JSON names other than [summary.json] give the same
    feed for the same time stamp: an earlier feed and files that are not JSON
    do not matter. *)
Theorem X17_feed_depends_on_day_results (stamp : string) (w1 w2 : World) :
  loadable (results_dir (store w1)) ->
  (forall name, result_name name = true ->
     results_dir (store w1) !! name = results_dir (store w2) !! name) ->
  is_Some (feed_of (rebuild_summary stamp w1)) /\
  feed_of (rebuild_summary stamp w1) = feed_of (rebuild_summary stamp w2).
Proof.
  intros Hok1 Hagree.
  assert (Hok2 : loadable (results_dir (store w2))).
  { intros name f Hf Hname. rewrite <- (Hagree name Hname) in Hf.
    apply (Hok1 name f Hf Hname). }
  rewrite (rebuild_summary_value stamp w1 Hok1), (rebuild_summary_value stamp w2 Hok2).
  rewrite !feed_of_written, (entries_agree _ _ Hagree). split; [eauto | reflexivity].
Qed.

Lemma X17_feed_depends_on_day_results_witness :
  is_Some (feed_of (rebuild_summary "now" sample_results_world)) /\
  feed_of (rebuild_summary "now" sample_results_world) =
  feed_of (rebuild_summary "now" sample_results_only_world).
Proof.
  apply (X17_feed_depends_on_day_results "now" sample_results_world
           sample_results_only_world).
  - exact sample_results_loadable.
  - intros name Hname. cbn [sample_results_world sample_results_only_world store results_dir].
    unfold sample_results, sample_results_only.
    rewrite !lookup_insert. repeat case_decide; subst; try reflexivity; discriminate.
Defined.

(** X18 — rebuilding twice.  A second rebuild right after a first one writes
    the same feed again, to the time stamp: [results] and [total_days] are
    those of the first, and no other file changes. *)
Theorem X18_rebuild_idempotent (stamp1 stamp2 : string) (w : World) :
  loadable (results_dir (store w)) ->
  exists w1 w2 feed1,
    rebuild_summary stamp1 w = ret w1 /\
    results_dir (store w1) !! "summary.json" = Some (SummaryFile feed1) /\
    rebuild_summary stamp2 w1 = ret w2 /\
    results_dir (store w2) =
      <["summary.json" := SummaryFile {| last_updated := stamp2;
                                         total_days := total_days feed1;
                                         results := results feed1 |}]>
        (results_dir (store w1)) /\
    forecasts_dir (store w2) = forecasts_dir (store w) /\
    actuals_dir (store w2) = actuals_dir (store w).
Proof.
  intros Hok. pose proof (rebuild_summary_value stamp1 w Hok) as H1. cbv zeta in H1.
  set (dir := results_dir (store w)) in *.
  set (entries := sort_by_date_desc (omap (entry_of dir) (sorted_names (listdir dir)))) in *.
  set (feed1 := {| last_updated := stamp1; total_days := length entries;
                   results := entries |}) in *.
  set (w1 := emit (PrintRebuilt (length entries))
                  (write_result "summary.json" (SummaryFile feed1) w)) in *.
  assert (Hdir1 : results_dir (store w1) = <["summary.json" := SummaryFile feed1]> dir)
    by reflexivity.
  assert (Hok1 : loadable (results_dir (store w1))).
  { rewrite Hdir1. apply loadable_insert_feed, Hok. }
  pose proof (rebuild_summary_value stamp2 w1 Hok1) as H2. cbv zeta in H2.
  assert (Hsame : omap (entry_of (results_dir (store w1)))
                       (sorted_names (listdir (results_dir (store w1)))) =
                  omap (entry_of dir) (sorted_names (listdir dir))).
  { apply entries_agree. intros name Hname. rewrite Hdir1.
    apply lookup_insert_ne. intros <-. discriminate. }
  rewrite Hsame in H2. fold entries in H2.
  exists w1. eexists. exists feed1. split; [exact H1 |].
  split; [rewrite Hdir1; apply lookup_insert_eq |].
  split; [exact H2 |]. repeat split.
Qed.

Lemma X18_rebuild_idempotent_witness :
  exists w1 w2 feed1,
    rebuild_summary "first" sample_results_world = ret w1 /\
    results_dir (store w1) !! "summary.json" = Some (SummaryFile feed1) /\
    rebuild_summary "second" w1 = ret w2 /\
    results_dir (store w2) =
      <["summary.json" := SummaryFile {| last_updated := "second";
                                         total_days := total_days feed1;
                                         results := results feed1 |}]>
        (results_dir (store w1)) /\
    forecasts_dir (store w2) = forecasts_dir (store sample_results_world) /\
    actuals_dir (store w2) = actuals_dir (store sample_results_world).
Proof.
  apply (X18_rebuild_idempotent "first" "second" sample_results_world).
  exact sample_results_loadable.
Defined.

(** ** The comparison phase with a forecast *)

Lemma string_length_append (a s : string) :
  String.length (a ++ s)%string = (String.length a + String.length s)%nat.
Proof.
  induction a as [| c a IH]; [reflexivity |].
  change (String c a ++ s)%string with (String c (a ++ s)%string).
  cbn [String.length Nat.add]. f_equal. exact IH.
Qed.

Lemma append_inj_l (a b s : string) : (a ++ s)%string = (b ++ s)%string -> a = b.
Proof.
  revert b. induction a as [| c a IH]; intros [| c' b] H.
  - reflexivity.
  - exfalso. apply (f_equal String.length) in H.
    rewrite !string_length_append in H. cbn [String.length] in H. lia.
  - exfalso. apply (f_equal String.length) in H.
    rewrite !string_length_append in H. cbn [String.length] in H. lia.
  - change (String c (a ++ s)%string = String c' (b ++ s)%string) in H.
    injection H as -> H. f_equal. apply IH, H.
Qed.

Lemma substring_all (s : string) : String.substring 0 (String.length s) s = s.
Proof.
  induction s as [| c s IH]; [reflexivity |].
  cbn [String.length String.substring]. f_equal. exact IH.
Qed.

Lemma substring_skip (a s : string) (k : nat) :
  String.substring (String.length a) k (a ++ s)%string = String.substring 0 k s.
Proof.
  induction a as [| c a IH]; [reflexivity |].
  change (String c a ++ s)%string with (String c (a ++ s)%string).
  cbn [String.length String.substring]. exact IH.
Qed.

(** A name built by appending a suffix ends with it. *)
Lemma endswith_append (a s : string) : endswith (a ++ s)%string s = true.
Proof.
  unfold endswith. rewrite string_length_append.
  replace (String.length a + String.length s - String.length s)%nat
    with (String.length a) by lia.
  rewrite substring_skip, substring_all, String.eqb_refl.
  apply andb_true_intro. split; [apply Nat.leb_le; lia | reflexivity].
Qed.

Lemma result_name_of_date (day : string) :
  day <> "summary" -> result_name (day ++ ".json")%string = true.
Proof.
  intros Hne. unfold result_name. rewrite endswith_append. cbn [andb].
  destruct (String.eqb_spec (day ++ ".json")%string "summary.json") as [E | _]; [| reflexivity].
  exfalso. apply Hne. apply (append_inj_l day "summary" ".json"). exact E.
Qed.

Lemma print_metrics_trace (a : AccuracyResult) (w : World) (ms : list string) :
  foldl (fun w metric => emit (PrintMetric metric (dict_get metric (summary a) ≫= id)) w)
        w ms =
  {| store := store w;
     trace := trace w ++ map (fun metric =>
                              PrintMetric metric (dict_get metric (summary a) ≫= id)) ms |}.
Proof.
  revert w. induction ms as [| m ms IH]; intros w.
  - cbn. rewrite app_nil_r. destruct w; reflexivity.
  - cbn [foldl map]. rewrite IH. unfold emit. cbn [store trace].
    rewrite <- app_assoc. reflexivity.
Qed.

Lemma requested_metrics (a : AccuracyResult) (ms : list string) :
  requested (map (fun metric => PrintMetric metric (dict_get metric (summary a) ≫= id)) ms)
  = [].
Proof. induction ms as [| m ms IH]; [reflexivity | exact IH]. Qed.

(** The comparison run up to the rebuild of the feed. *)
Lemma compare_main_found (env : Env) (w : World) (fd : Collection) :
  forecasts_dir (store w) !! (yesterday env ++ ".json")%string = Some fd ->
  exists w1 events,
    store w1 =
      {| forecasts_dir := forecasts_dir (store w);
         actuals_dir := <[(yesterday env ++ ".json")%string := actuals_of env]>
                          (actuals_dir (store w));
         results_dir := <[(yesterday env ++ ".json")%string :=
                            DayResultFile (day_result_of env fd)]>
                          (results_dir (store w)) |} /\
    trace w1 = trace w ++ events /\
    requested events = NSW_REGIONS /\
    collect_actual_and_compare.main env w =
      match rebuild_summary (utc_now env 2) w1 with
      | inr w' => (0%nat, w')
      | inl e => (1%nat, emit (Traceback e) w1)
      end.
Proof.
  intros Hfd. unfold collect_actual_and_compare.main. unfold emit at 1 2. cbn [store trace].
  rewrite Hfd. rewrite collect_regions_fold. cbn [app].
  rewrite print_metrics_trace.
  eexists. eexists. split; [| split; [| split; [| reflexivity]]].
  - reflexivity.
  - unfold emit, write_actuals, write_result. cbn [store trace].
    rewrite <- !app_assoc. reflexivity.
  - rewrite !requested_app, requested_regions, requested_metrics. reflexivity.
Qed.

(** X19 — one comparison run.  With yesterday's forecast document in place
    and a results directory [rebuild_summary] can load, the run exits with
    status 0 whatever the fetches did, even if all of them failed: it makes
    one request per catalog region in catalog order, leaves the forecasts
    alone, writes the actuals document and the day result, and the feed it
    rebuilds holds that day's entry. *)
Theorem X19_compare_run (env : Env) (w : World) (fd : Collection) :
  forecasts_dir (store w) !! (yesterday env ++ ".json")%string = Some fd ->
  loadable (results_dir (store w)) ->
  yesterday env <> "summary" ->
  let r := collect_actual_and_compare.main env w in
  r.1 = 0%nat /\
  requested (drop (length (trace w)) (trace r.2)) = NSW_REGIONS /\
  forecasts_dir (store r.2) = forecasts_dir (store w) /\
  actuals_dir (store r.2) =
    <[(yesterday env ++ ".json")%string := actuals_of env]> (actuals_dir (store w)) /\
  results_dir (store r.2) !! (yesterday env ++ ".json")%string =
    Some (DayResultFile (day_result_of env fd)) /\
  exists feed,
    results_dir (store r.2) !! "summary.json" = Some (SummaryFile feed) /\
    last_updated feed = utc_now env 2 /\
    project (day_result_of env fd) ∈ results feed.
Proof.
  intros Hfd Hok Hday r.
  destruct (compare_main_found env w fd Hfd) as (w1 & events & Hstore & Htrace & Hreq & Hmain).
  assert (Hdir1 : results_dir (store w1) =
            <[(yesterday env ++ ".json")%string := DayResultFile (day_result_of env fd)]>
              (results_dir (store w))) by (rewrite Hstore; reflexivity).
  assert (Hok1 : loadable (results_dir (store w1))).
  { rewrite Hdir1. apply loadable_insert_day, Hok. }
  pose proof (rebuild_summary_value (utc_now env 2) w1 Hok1) as Hre. cbv zeta in Hre.
  unfold r. rewrite Hmain, Hre. unfold ret, emit, write_result.
  cbn [fst snd store trace forecasts_dir actuals_dir results_dir].
  rewrite Hstore. cbn [forecasts_dir actuals_dir results_dir].
  pose proof (result_name_of_date _ Hday) as Hname.
  split; [reflexivity |]. split; [| split; [reflexivity | split; [reflexivity | split]]].
  - rewrite Htrace, <- app_assoc, drop_app_length, requested_app, Hreq. reflexivity.
  - rewrite lookup_insert_ne; [apply lookup_insert_eq |].
    intros E. rewrite <- E in Hname. discriminate.
  - eexists. split; [apply lookup_insert_eq |]. cbn [last_updated results].
    split; [reflexivity |].
    unfold sort_by_date_desc. rewrite py_sort_perm.
    unfold sorted_names. rewrite py_sort_perm.
    rewrite <- Hdir1, entries_of_listdir.
    apply (list_elem_of_fmap_2 project). unfold result_documents.
    apply list_elem_of_omap.
    exists ((yesterday env ++ ".json")%string, DayResultFile (day_result_of env fd)).
    split.
    + apply elem_of_map_to_list. rewrite Hdir1. apply lookup_insert_eq.
    + cbn [fst snd]. rewrite Hname. reflexivity.
Qed.

Lemma X19_compare_run_witness :
  (collect_actual_and_compare.main (sample_env flaky_http) world_after_forecast).1 = 0%nat.
Proof.
  assert (H : exists fd, forecasts_dir (store world_after_forecast) !! "2024-01-01.json"
                         = Some fd).
  { vm_compute. eexists. reflexivity. }
  destruct H as [fd Hfd].
  apply (X19_compare_run (sample_env flaky_http) world_after_forecast fd Hfd).
  - intros name f Hf. exfalso. revert Hf. vm_compute. discriminate.
  - discriminate.
Defined.

(** X20 — a comparison run over a results directory it cannot load.  When
    the results directory holds, apart from the day's own file, a JSON file
    that is not a day result, the run has already written the actuals document
    and the day result when the rebuild raises what loading the first such
    file raises: it exits with status 1, the traceback of that exception last
    in its trace, and the feed is left as it was. *)
Theorem X20_compare_run_stale_feed (env : Env) (w : World) (fd : Collection)
    (name : string) (f : ResultsFile) (e : PyError) :
  forecasts_dir (store w) !! (yesterday env ++ ".json")%string = Some fd ->
  first_unreadable (delete (yesterday env ++ ".json")%string (results_dir (store w)))
                   name f ->
  load_result f = raise e ->
  let r := collect_actual_and_compare.main env w in
  r.1 = 1%nat /\
  last (trace r.2) = Some (Traceback e) /\
  actuals_dir (store r.2) =
    <[(yesterday env ++ ".json")%string := actuals_of env]> (actuals_dir (store w)) /\
  results_dir (store r.2) =
    <[(yesterday env ++ ".json")%string := DayResultFile (day_result_of env fd)]>
      (results_dir (store w)).
Proof.
  intros Hfd Hfirst He r.
  destruct (compare_main_found env w fd Hfd) as (w1 & events & Hstore & Htrace & Hreq & Hmain).
  assert (Hfirst1 : first_unreadable (results_dir (store w1)) name f).
  { rewrite Hstore. cbn [results_dir]. apply first_unreadable_insert_day, Hfirst. }
  unfold r. rewrite Hmain, (rebuild_summary_raises _ w1 name f e Hfirst1 He).
  unfold raise, emit. cbn [fst snd store trace]. rewrite Hstore.
  cbn [actuals_dir results_dir]. repeat split. apply last_snoc.
Qed.

Lemma X20_compare_run_stale_feed_witness :
  let r := collect_actual_and_compare.main (sample_env good_http) world_with_foreign_json in
  r.1 = 1%nat /\ last (trace r.2) = Some (Traceback TypeError).
Proof.
  assert (H : exists fd, forecasts_dir (store world_with_foreign_json) !! "2024-01-01.json"
                         = Some fd).
  { vm_compute. eexists. reflexivity. }
  destruct H as [fd Hfd].
  assert (Hdir : results_dir (store world_with_foreign_json) =
                 <["notes.json" := ForeignFile NotSubscriptable]> ∅).
  { reflexivity. }
  destruct (X20_compare_run_stale_feed (sample_env good_http) world_with_foreign_json fd
              "notes.json" (ForeignFile NotSubscriptable) TypeError Hfd) as (H1 & H2 & _).
  - rewrite Hdir. split; [reflexivity |]. split; [reflexivity |]. split; [reflexivity |].
    intros name' f' Hf' _ _.
    apply lookup_delete_Some in Hf' as [_ Hf'].
    apply lookup_insert_Some in Hf' as [[<- _] | [_ Hf']]; [reflexivity |].
    rewrite lookup_empty in Hf'. discriminate.
  - reflexivity.
  - split; assumption.
Defined.
